(** * ramlfications: the RAML validator ([ramlfications/validate.py])

    A shallow embedding of the two decorators, the two rule registries and
    the rule set, followed by the properties of the rules.

    Python values are modelled as trees of scalars, sequences and
    insertion-ordered mappings.  Objects that Python passes by reference
    (the parsed document, the root, resources, security schemes) live in a
    heap; a rule receives references into it.  Every rule runs in a state
    and exception monad over the whole process state (heap, environment
    variables, configuration, file system), so that what a rule reads and
    what it leaves untouched can both be stated.  Built-in operations behave
    as in Python 3; a string is a sequence of code points below 256. *)

From Stdlib Require Import String Ascii List ZArith Bool Lia.
Import ListNotations.
Local Open Scope string_scope.
#[local] Set Warnings "-register-all".

(** ** Python values *)

(** Hashable scalars: what a YAML loader produces for mapping keys and
    leaves.  Floats are outside the model. *)
Inductive scalar : Type :=
| SNone
| SBool (b : bool)
| SInt (z : Z)
| SStr (s : string).

(** A parsed tree.  A [VDict] keeps its entries in insertion order. *)
Inductive value : Type :=
| VScalar (c : scalar)
| VList (l : list value)
| VDict (d : list (scalar * value)).

Abbreviation VNone := (VScalar SNone).
Abbreviation VStr s := (VScalar (SStr s)).
Abbreviation VBool b := (VScalar (SBool b)).
Abbreviation VInt z := (VScalar (SInt z)).

(** Python's [==] on scalars; [True == 1] and [False == 0] hold. *)
Definition scalar_eqb (a b : scalar) : bool :=
  match a, b with
  | SNone, SNone => true
  | SBool x, SBool y => Bool.eqb x y
  | SInt x, SInt y => Z.eqb x y
  | SBool x, SInt y => Z.eqb (Z.b2z x) y
  | SInt x, SBool y => Z.eqb x (Z.b2z y)
  | SStr x, SStr y => String.eqb x y
  | _, _ => false
  end.

(** [v == c] for a scalar [c]: a sequence or mapping never equals one. *)
Definition value_eq_scalar (v : value) (c : scalar) : bool :=
  match v with
  | VScalar c' => scalar_eqb c' c
  | _ => false
  end.

(** [x in l] for a list [l] of scalars. *)
Definition scalar_in (c : scalar) (l : list scalar) : bool :=
  existsb (scalar_eqb c) l.

Definition value_in (v : value) (l : list scalar) : bool :=
  existsb (value_eq_scalar v) l.

Definition is_nil {A} (l : list A) : bool :=
  match l with [] => true | _ => false end.

(** Truth value testing ([if x], [not x]). *)
Definition scalar_truthy (c : scalar) : bool :=
  match c with
  | SNone => false
  | SBool b => b
  | SInt z => negb (z =? 0)%Z
  | SStr s => negb (s =? "")
  end.

Definition truthy (v : value) : bool :=
  match v with
  | VScalar c => scalar_truthy c
  | VList l => negb (is_nil l)
  | VDict d => negb (is_nil d)
  end.

Definition list_truthy {A} (l : list A) : bool := negb (is_nil l).

Definition is_none (v : value) : bool :=
  match v with VNone => true | _ => false end.

Definition isinstance_dict (v : value) : bool :=
  match v with VDict _ => true | _ => false end.

Definition isinstance_list (v : value) : bool :=
  match v with VList _ => true | _ => false end.

(** ** Exceptions and outcomes *)

(** The validator's own error carries [fmt.format(args)]; the format string
    and its arguments are kept apart, unrendered.  The other constructors
    are the built-in exceptions the rules can run into. *)
Inductive exn : Type :=
| InvalidRamlFileError (fmt : string) (args : list value)
| AttributeError
| TypeError
| KeyError
| IndexError
| ValueError
| OverflowError
| OSError.

Inductive outcome (A : Type) : Type :=
| Ok (a : A)
| Raise (e : exn).
Arguments Ok {A} a.
Arguments Raise {A} e.

(** ** Mapping and sequence operations *)

Fixpoint dict_lookup (d : list (scalar * value)) (k : scalar) : option value :=
  match d with
  | [] => None
  | (k', v) :: d' => if scalar_eqb k' k then Some v else dict_lookup d' k
  end.

(** [d[k] = v]: an existing key keeps its position, a new one goes last. *)
Fixpoint dict_set (d : list (scalar * value)) (k : scalar) (v : value)
  : list (scalar * value) :=
  match d with
  | [] => [(k, v)]
  | (k', v') :: d' =>
      if scalar_eqb k' k then (k', v) :: d' else (k', v') :: dict_set d' k v
  end.

(** [dict(items)] *)
Definition dict_of_items (items : list (scalar * value)) : list (scalar * value) :=
  fold_left (fun d kv => dict_set d (fst kv) (snd kv)) items [].

(** [o.get(k, dflt)]; only a mapping has [get]. *)
Definition py_get (v : value) (k : scalar) (dflt : value) : outcome value :=
  match v with
  | VDict d => Ok (match dict_lookup d k with Some x => x | None => dflt end)
  | _ => Raise AttributeError
  end.

(** [iteritems(o)], [iterkeys(o)], [itervalues(o)] (six): the mapping's
    own methods, missing on anything else. *)
Definition iteritems (v : value) : outcome (list (scalar * value)) :=
  match v with
  | VDict d => Ok d
  | _ => Raise AttributeError
  end.

Definition iterkeys (v : value) : outcome (list scalar) :=
  match v with
  | VDict d => Ok (map fst d)
  | _ => Raise AttributeError
  end.

Definition itervalues (v : value) : outcome (list value) :=
  match v with
  | VDict d => Ok (map snd d)
  | _ => Raise AttributeError
  end.

(** [l[0]] *)
Definition first {A} (l : list A) : outcome A :=
  match l with
  | x :: _ => Ok x
  | [] => Raise IndexError
  end.

(** [o.items()] *)
Definition py_items (v : value) : outcome (list (scalar * value)) :=
  match v with
  | VDict d => Ok d
  | _ => Raise AttributeError
  end.

(** [o[0]] *)
Definition py_item0 (v : value) : outcome value :=
  match v with
  | VList l => first l
  | VDict d =>
      match dict_lookup d (SInt 0) with
      | Some x => Ok x
      | None => Raise KeyError
      end
  | VStr s =>
      match s with
      | String c _ => Ok (VStr (String c ""))
      | "" => Raise IndexError
      end
  | VScalar _ => Raise TypeError
  end.

(** [for x in o]: a sequence yields its elements, a mapping its keys, a
    string its characters; other scalars are not iterable. *)
Definition py_iter (v : value) : outcome (list value) :=
  match v with
  | VList l => Ok l
  | VDict d => Ok (map (fun kv => VScalar (fst kv)) d)
  | VStr s => Ok (map (fun c => VStr (String c "")) (list_ascii_of_string s))
  | VScalar _ => Raise TypeError
  end.

(** [len(o)] *)
Definition py_len (v : value) : outcome nat :=
  match v with
  | VList l => Ok (List.length l)
  | VDict d => Ok (List.length d)
  | VStr s => Ok (String.length s)
  | VScalar _ => Raise TypeError
  end.

(** ** Strings *)

(** [needle in hay] on strings. *)
Fixpoint contains (needle hay : string) : bool :=
  prefix needle hay ||
  match hay with
  | "" => false
  | String _ hay' => contains needle hay'
  end.

(** [needle in o] for a string [needle]. *)
Definition py_contains (needle : string) (v : value) : outcome bool :=
  match v with
  | VStr s => Ok (contains needle s)
  | VList l => Ok (existsb (fun x => value_eq_scalar x (SStr needle)) l)
  | VDict d => Ok (existsb (fun kv => scalar_eqb (fst kv) (SStr needle)) d)
  | VScalar _ => Raise TypeError
  end.

Definition lower_ascii (c : ascii) : ascii :=
  let n := nat_of_ascii c in
  if (65 <=? n)%nat && (n <=? 90)%nat then ascii_of_nat (n + 32) else c.

(** [s.lower()], on ASCII text. *)
Fixpoint lower (s : string) : string :=
  match s with
  | "" => ""
  | String c s' => String (lower_ascii c) (lower s')
  end.

Definition py_lower (c : scalar) : outcome string :=
  match c with
  | SStr s => Ok (lower s)
  | _ => Raise AttributeError
  end.

Definition py_startswith (c : scalar) (p : string) : outcome bool :=
  match c with
  | SStr s => Ok (prefix p s)
  | _ => Raise AttributeError
  end.

Definition newline : ascii := "010"%char.

(** The characters [str.split()] treats as white space (Python 3,
    [str.isspace]).  A character of a string is a Unicode code point below
    256; among these the white space is U+0009 to U+000D, U+001C to U+0020,
    U+0085 and U+00A0.  Text with code points from 256 on is outside the
    model. *)
Definition is_space (c : ascii) : bool :=
  let n := nat_of_ascii c in
  ((9 <=? n)%nat && (n <=? 13)%nat) || ((28 <=? n)%nat && (n <=? 32)%nat)
  || (n =? 133)%nat || (n =? 160)%nat.

(** [s.split()] *)
Fixpoint split_ws (s : string) : list string :=
  match s with
  | "" => []
  | String c s' =>
      if is_space c then split_ws s'
      else
        match s' with
        | "" => [String c ""]
        | String c' _ =>
            if is_space c' then String c "" :: split_ws s'
            else
              match split_ws s' with
              | tok :: toks => String c tok :: toks
              | [] => [String c ""]
              end
        end
  end.

(** [s.split(sep)] for a one-character separator; never empty. *)
Fixpoint split_char (sep : ascii) (s : string) : list string :=
  match s with
  | "" => [""]
  | String c s' =>
      if (c =? sep)%char then "" :: split_char sep s'
      else
        match split_char sep s' with
        | h :: t => String c h :: t
        | [] => [String c ""]
        end
  end.

(** A text stream is the text not yet read.  [readline] returns the next
    line, newline included, and the stream after it.  Line ends are the
    newline character: the universal-newline translation of text mode is
    taken as already done. *)
Fixpoint readline (r : string) : string * string :=
  match r with
  | "" => ("", "")
  | String c r' =>
      if (c =? newline)%char then (String c "", r')
      else let (l, rest) := readline r' in (String c l, rest)
  end.

(** [r.readlines()]: the lines that remain. *)
Fixpoint readlines (r : string) : list string :=
  match r with
  | "" => []
  | String c r' =>
      if (c =? newline)%char then String c "" :: readlines r'
      else
        match r' with
        | "" => [String c ""]
        | String _ _ =>
            match readlines r' with
            | l :: ls => String c l :: ls
            | [] => [String c ""]
            end
        end
  end.

(** ** The media-type pattern

    [re.search(r"application\/[A-Za-z.-0-1]*?(json|xml)", s)].
    The class reads as the ranges [A-Z], [a-z] and [.-0] (the three
    characters '.', '/', '0'), then the literals '-' and '1'. *)
Module Regex.

Definition in_class (c : ascii) : bool :=
  let n := nat_of_ascii c in
  ((65 <=? n)%nat && (n <=? 90)%nat)
  || ((97 <=? n)%nat && (n <=? 122)%nat)
  || ((46 <=? n)%nat && (n <=? 48)%nat)
  || (n =? 45)%nat
  || (n =? 49)%nat.

(** [[A-Za-z.-0-1]*?(json|xml)] anchored at the start of [s]. *)
Fixpoint match_suffix (s : string) : bool :=
  prefix "json" s || prefix "xml" s ||
  match s with
  | "" => false
  | String c s' => in_class c && match_suffix s'
  end.

Fixpoint drop (n : nat) (s : string) : string :=
  match n, s with
  | O, _ => s
  | S n', String _ s' => drop n' s'
  | S _, "" => ""
  end.

(** The whole pattern anchored at the start of [s]. *)
Definition match_here (s : string) : bool :=
  prefix "application/" s && match_suffix (drop 12 s).

(** [re.search]: a match at some position of [s]. *)
Fixpoint search (s : string) : bool :=
  match_here s ||
  match s with
  | "" => false
  | String _ s' => search s'
  end.

End Regex.

(** [re.search(regex_str, media_type)] as a truth value; the subject must
    be a string. *)
Definition re_search (v : value) : outcome bool :=
  match v with
  | VStr s => Ok (Regex.search s)
  | _ => Raise TypeError
  end.

(** ** Objects, references and the process state *)

(** A resource-like object (Resource, ResourceType view, Trait view) or a
    security scheme.  [method] and [orig_method] are the attributes the rules
    probe with [hasattr]: [None] here means the attribute does not exist,
    [Some SNone] that it exists and holds Python's [None]. *)
Record node : Type := mkNode {
  name : scalar;
  method : option scalar;
  orig_method : option scalar;
  data : value;
  type : value
}.

(** The root of the object model.  A collection that was never declared is
    Python's [None], here [None]. *)
Record root : Type := mkRoot {
  resource_types : option (list node);
  security_schemes : option (list node)
}.

(** What a reference can point to. *)
Inductive pyobj : Type :=
| OValue (v : value)
| ONode (n : node)
| ONodes (l : list node)
| ORoot (r : root).

(** A positional argument: an immutable scalar, or a reference. *)
Inductive arg : Type :=
| Imm (c : scalar)
| Ref (l : nat).

(** The configuration facade, [config.get(section, key)], one field per
    key the validator reads. *)
Record cfg : Type := mkCfg {
  main_validate : string;
  raml_versions : list scalar;
  protocols : list scalar;
  media_types : list scalar;
  prim_types : list scalar;
  auth_schemes : list scalar;
  resp_codes : list scalar
}.

(** What the file system is asked for: a path, or an open file
    descriptor. *)
Inductive fsname : Type :=
| ByPath (p : string)
| ByFd (fd : Z).

(** [files] gives the regular, readable files and the open descriptors, each
    by its text as text mode decodes it. *)
Record world : Type := mkWorld {
  heap : nat -> pyobj;
  environ : string -> option string;
  config : cfg;
  files : fsname -> option string
}.

(** ** The state and exception monad *)

Definition M (A : Type) : Type := world -> outcome A * world.

Definition ret {A} (a : A) : M A := fun w => (Ok a, w).

Definition raise {A} (e : exn) : M A := fun w => (Raise e, w).

Definition bind {A B} (m : M A) (k : A -> M B) : M B :=
  fun w =>
    match m w with
    | (Ok a, w') => k a w'
    | (Raise e, w') => (Raise e, w')
    end.

Definition lift {A} (o : outcome A) : M A := fun w => (o, w).

Declare Scope py_scope.
Delimit Scope py_scope with py.
Notation "x <- m ;; k" := (bind m (fun x => k))
  (at level 61, m at next level, right associativity) : py_scope.
Notation "m ;; k" := (bind m (fun _ => k))
  (at level 61, right associativity) : py_scope.
Local Open Scope py_scope.

(** [for x in xs: body] *)
Fixpoint for_each {A} (xs : list A) (body : A -> M unit) : M unit :=
  match xs with
  | [] => ret tt
  | x :: xs' => body x ;; for_each xs' body
  end.

(** [[f(x) for x in xs]] *)
Fixpoint map_m {A B} (f : A -> M B) (xs : list A) : M (list B) :=
  match xs with
  | [] => ret []
  | x :: xs' => y <- f x ;; ys <- map_m f xs' ;; ret (y :: ys)
  end.

(** Reads of the process state. *)
Definition deref (a : arg) : M pyobj :=
  fun w => (Ok (match a with Imm c => OValue (VScalar c) | Ref l => heap w l end), w).

Definition os_environ_get (k : string) : M (option string) :=
  fun w => (Ok (environ w k), w).

Definition config_get {A} (field : cfg -> A) : M A :=
  fun w => (Ok (field (config w)), w).

Fixpoint has_nul (p : string) : bool :=
  match p with
  | "" => false
  | String c p' => (c =? "000")%char || has_nul p'
  end.

(** How [os.stat] and [open] read their first argument (Python 3): a
    string is a path and must hold no NUL character; an integer, and a
    boolean as the integer it is, is a file descriptor and must fit a C
    [int]; anything else is refused. *)
Definition fsname_of (path : pyobj) : outcome fsname :=
  match path with
  | OValue (VStr p) => if has_nul p then Raise ValueError else Ok (ByPath p)
  | OValue (VInt z) =>
      if ((- 2 ^ 31 <=? z) && (z <? 2 ^ 31))%Z then Ok (ByFd z)
      else Raise OverflowError
  | OValue (VBool b) => Ok (ByFd (Z.b2z b))
  | _ => Raise TypeError
  end.

(** The text found under a name: the empty path names nothing, and no
    descriptor is negative. *)
Definition lookup_file (w : world) (nm : fsname) : option string :=
  match nm with
  | ByPath EmptyString => None
  | ByPath _ => files w nm
  | ByFd fd => if (fd <? 0)%Z then None else files w nm
  end.

(** [os.path.getsize(path)].  The rule observes only whether the size is
    zero, which it is exactly when the text is empty. *)
Definition getsize (path : pyobj) : M nat :=
  fun w =>
    match fsname_of path with
    | Ok nm =>
        match lookup_file w nm with
        | Some text => (Ok (String.length text), w)
        | None => (Raise OSError, w)
        end
    | Raise e => (Raise e, w)
    end.

(** [open(path, 'r')]: the stream positioned at the start of the text.  A
    negative descriptor is a [ValueError] here. *)
Definition open (path : pyobj) : M string :=
  fun w =>
    match fsname_of path with
    | Ok nm =>
        match nm with
        | ByFd fd =>
            if (fd <? 0)%Z then (Raise ValueError, w)
            else
              match lookup_file w nm with
              | Some text => (Ok text, w)
              | None => (Raise OSError, w)
              end
        | ByPath _ =>
            match lookup_file w nm with
            | Some text => (Ok text, w)
            | None => (Raise OSError, w)
            end
        end
    | Raise e => (Raise e, w)
    end.

(** ** Attribute access *)

Definition obj_get (o : pyobj) (k : scalar) (dflt : value) : outcome value :=
  match o with
  | OValue v => py_get v k dflt
  | _ => Raise AttributeError
  end.

Definition obj_truthy (o : pyobj) : bool :=
  match o with
  | OValue v => truthy v
  | ONodes l => negb (is_nil l)
  | ONode _ | ORoot _ => true
  end.

Definition obj_len (o : pyobj) : outcome nat :=
  match o with
  | OValue v => py_len v
  | ONodes l => Ok (List.length l)
  | ONode _ | ORoot _ => Raise TypeError
  end.

Definition hasattr_method (o : pyobj) : bool :=
  match o with
  | ONode n => match method n with Some _ => true | None => false end
  | _ => false
  end.

Definition hasattr_orig_method (o : pyobj) : bool :=
  match o with
  | ONode n => match orig_method n with Some _ => true | None => false end
  | _ => false
  end.

Definition attr_method (o : pyobj) : outcome scalar :=
  match o with
  | ONode n => match method n with Some m => Ok m | None => Raise AttributeError end
  | _ => Raise AttributeError
  end.

Definition attr_orig_method (o : pyobj) : outcome scalar :=
  match o with
  | ONode n => match orig_method n with Some m => Ok m | None => Raise AttributeError end
  | _ => Raise AttributeError
  end.

Definition attr_data (o : pyobj) : outcome value :=
  match o with
  | ONode n => Ok (data n)
  | _ => Raise AttributeError
  end.

Definition attr_type (o : pyobj) : outcome value :=
  match o with
  | ONode n => Ok (type n)
  | _ => Raise AttributeError
  end.

Definition attr_name (o : pyobj) : outcome value :=
  match o with
  | ONode n => Ok (VScalar (name n))
  | _ => Raise AttributeError
  end.

(** [root.resource_types] and [root.security_schemes]; [None] models
    Python's [None]. *)
Definition attr_resource_types (o : pyobj) : outcome (option (list node)) :=
  match o with
  | ORoot r => Ok (resource_types r)
  | _ => Raise AttributeError
  end.

Definition attr_security_schemes (o : pyobj) : outcome (option (list node)) :=
  match o with
  | ORoot r => Ok (security_schemes r)
  | _ => Raise AttributeError
  end.

Definition nodes_truthy (nodes : option (list node)) : bool :=
  match nodes with
  | Some l => list_truthy l
  | None => false
  end.

(** [[r.name for r in nodes]]; [None] is not iterable. *)
Definition names_of (nodes : option (list node)) : outcome (list scalar) :=
  match nodes with
  | Some l => Ok (map name l)
  | None => Raise TypeError
  end.

(** A rule is called as [rule(obj, *args, **kw)]; keyword arguments are
    never passed by the decorators' callers and are left out. *)
Definition rule : Type := arg -> list arg -> M unit.

(** Calling a rule declared with the one parameter [raml] with further
    positional arguments is a [TypeError]. *)
Definition no_more_args (args : list arg) : M unit :=
  match args with
  | [] => ret tt
  | _ :: _ => raise TypeError
  end.

(** ** API metadata validation *)

Definition invalid {A} (fmt : string) (args : list value) : M A :=
  raise (InvalidRamlFileError fmt args).

(** Require a Base URI. *)
Definition __base_uri : rule := fun raml args =>
  no_more_args args ;;
  raml <- deref raml ;;
  baseUri <- lift (obj_get raml (SStr "baseUri") VNone) ;;
  if negb (truthy baseUri) then
    invalid "RAML File does not define the baseUri." []
  else ret tt.

(** Require an API Version (e.g. api.foo.com/v1). *)
Definition __version : rule := fun raml args =>
  prod <- lift (first args) ;;
  prod <- deref prod ;;
  raml <- deref raml ;;
  v <- lift (obj_get raml (SStr "version") VNone) ;;
  if obj_truthy prod && negb (truthy v) then
    invalid "RAML File does not define an API version." []
  else
    baseUri <- lift (obj_get raml (SStr "baseUri") VNone) ;;
    placeholder <- lift (py_contains "{version}" baseUri) ;;
    if placeholder && negb (truthy v) then
      invalid "RAML File's baseUri includes {version} parameter but no version is defined." []
    else ret tt.

(** [a, b = l] *)
Definition unpack2 {A} (l : list A) : outcome (A * A) :=
  match l with
  | [a; b] => Ok (a, b)
  | _ => Raise ValueError
  end.

(** [try: m except ValueError: handler] *)
Definition try_except_ValueError {A} (m : M A) (handler : M A) : M A :=
  fun w =>
    match m w with
    | (Raise ValueError, w') => handler w'
    | r => r
    end.

(** Validate Header of RAML File *)
Definition __raml_header : rule := fun raml_file args =>
  no_more_args args ;;
  raml_file <- deref raml_file ;;
  size <- getsize raml_file ;;
  if (size =? 0)%nat then invalid "RAML File is empty" []
  else
    r <- open raml_file ;;
    let (line, r) := readline r in
    raml_header <- lift (first (split_char newline line)) ;;
    if negb (truthy (VStr raml_header)) then
      invalid "RAML header empty. Please make sure the first line of the file contains a valid RAML file definition." []
    else
      p <- try_except_ValueError
             (lift (unpack2 (split_ws raml_header)))
             (invalid "Not a valid RAML header: {0}." [VStr raml_header]) ;;
      let (raml_def, version) := p in
      if negb (raml_def =? "#%RAML") then
        invalid "Not a valid RAML header: {0}." [VStr raml_def]
      else
        versions <- config_get raml_versions ;;
        if negb (scalar_in (SStr version) versions) then
          invalid "Not a valid version of RAML: {0}." [VStr version]
        else if negb (list_truthy (readlines r)) then
          invalid "No RAML data to parse." []
        else ret tt.

Definition __api_title : rule := fun raml args =>
  no_more_args args ;;
  raml <- deref raml ;;
  title <- lift (obj_get raml (SStr "title") VNone) ;;
  if negb (truthy title) then
    invalid "RAML File does not define an API title." []
  else ret tt.

(** Assert that if there is [documentation] defined in the root of the
    RAML file, that it contains a [title] and [content]. *)
Definition __documentation : rule := fun raml args =>
  no_more_args args ;;
  raml <- deref raml ;;
  docs <- lift (obj_get raml (SStr "documentation") VNone) ;;
  if truthy docs then
    ds <- lift (py_iter docs) ;;
    for_each ds (fun d =>
      title <- lift (py_get d (SStr "title") VNone) ;;
      if negb (truthy title) then
        invalid "API Documentation requires a title." []
      else
        content <- lift (py_get d (SStr "content") VNone) ;;
        if negb (truthy content) then
          invalid "API Documentation requires content defined." []
        else ret tt)
  else ret tt.

(** Require that Base URI Parameters have a [default] parameter set. *)
Definition __base_uri_params : rule := fun raml args =>
  raml <- deref raml ;;
  base_uri_params <- lift (obj_get raml (SStr "baseUriParameters") (VDict [])) ;;
  items <- lift (iteritems base_uri_params) ;;
  for_each items (fun kv =>
    let (k, v) := kv : scalar * value in
    values <- lift (iterkeys v) ;;
    if negb (scalar_in (SStr "default") values) then
      invalid "The 'default' parameter is not set for base URI parameter '{0}'" [VScalar k]
    else ret tt).

Definition __schemas : rule := fun raml args =>
  no_more_args args ;;
  ret tt.

Definition __protocols : rule := fun raml args =>
  raml <- deref raml ;;
  protocols_ <- lift (obj_get raml (SStr "protocols") VNone) ;;
  if truthy protocols_ then
    ps <- lift (py_iter protocols_) ;;
    for_each ps (fun p =>
      valid <- config_get protocols ;;
      if negb (value_in p valid) then
        invalid "'{0}' not a valid protocol for a RAML-defined API." [p]
      else ret tt)
  else ret tt.

Definition __media_type : rule := fun raml args =>
  no_more_args args ;;
  raml <- deref raml ;;
  media_type <- lift (obj_get raml (SStr "mediaType") VNone) ;;
  if truthy media_type then
    known <- config_get media_types ;;
    if value_in media_type known then ret tt
    else
      found <- lift (re_search media_type) ;;
      if found then ret tt
      else invalid "Unsupported MIME Media Type: '{0}'." [media_type]
  else ret tt.

(** Assert only valid Security Schemes are used. *)
Definition __security_schemes : rule := fun raml args =>
  raml <- deref raml ;;
  schemes <- lift (obj_get raml (SStr "securitySchemes") (VDict [])) ;;
  ss <- lift (py_iter schemes) ;;
  schemes <- map_m (fun s => ks <- lift (iterkeys s) ;; lift (first ks)) ss ;;
  if list_truthy schemes then
    for_each schemes (fun s =>
      valid <- config_get auth_schemes ;;
      if negb (scalar_in s valid) then
        x <- lift (py_startswith s "x-") ;;
        if negb x then
          invalid "'{0}' is not a valid Security Scheme." [VScalar s]
        else ret tt
      else ret tt)
  else ret tt.

Definition __uri_params : rule := fun raml args =>
  raml <- deref raml ;;
  uri_params <- lift (obj_get raml (SStr "uriParameters") (VDict [])) ;;
  ks <- lift (iterkeys uri_params) ;;
  for_each ks (fun k =>
    low <- lift (py_lower k) ;;
    if low =? "version" then
      invalid "'version' can only be defined in baseUriParameters." []
    else ret tt).

(** ** Trait, ResourceType, and Resource validation *)

Definition __check_media_type (media_type : value) : M unit :=
  known <- config_get media_types ;;
  if value_in media_type known then ret tt
  else if value_in media_type [SStr "schema"; SStr "example"] then ret tt
  else
    found <- lift (re_search media_type) ;;
    if found then ret tt
    else invalid "Unsupported MIME Media Type: '{0}'." [media_type].

Definition __body_media_type (body : value) : M unit :=
  items <- lift (iteritems body) ;;
  for_each items (fun kv =>
    let (k, v) := kv : scalar * value in
    __check_media_type (VScalar k) ;;
    if scalar_in k [SStr "application/x-www-form-urlencoded"; SStr "multipart/form-data"] then
      props <- lift (iterkeys v) ;;
      if scalar_in (SStr "schema") props then
        invalid "'schema' may not be specified when the body's media type is application/x-www-form-urlencoded or multipart/form-data." []
      else ret tt
    else ret tt).

Definition __responses : rule := fun resource args =>
  resource <- deref resource ;;
  bound <- (if hasattr_method resource then
              d <- lift (attr_data resource) ;;
              m <- lift (attr_method resource) ;;
              x <- lift (py_get d m VNone) ;;
              ret (negb (is_none x))
            else ret false) ;;
  resp <- (if bound : bool then
             d <- lift (attr_data resource) ;;
             m <- lift (attr_method resource) ;;
             x <- lift (py_get d m (VDict [])) ;;
             lift (py_get x (SStr "responses") (VDict []))
           else if hasattr_orig_method resource then
             d <- lift (attr_data resource) ;;
             m <- lift (attr_orig_method resource) ;;
             x <- lift (py_get d m (VDict [])) ;;
             lift (py_get x (SStr "responses") (VDict []))
           else
             d <- lift (attr_data resource) ;;
             lift (py_get d (SStr "responses") (VDict []))) ;;
  codes <- lift (iterkeys resp) ;;
  for_each codes (fun code =>
    valid <- config_get resp_codes ;;
    if negb (scalar_in code valid) then
      invalid "'{0}' not a valid response code." [VScalar code]
    else ret tt) ;;
  items <- lift (itervalues resp) ;;
  for_each items (fun item =>
    body <- lift (py_get item (SStr "body") (VDict [])) ;;
    __body_media_type body).

(** ** Parameter validation (Query, URI, Form) *)

Definition __primative_parameter (parameter : value) : M unit :=
  vs <- lift (itervalues parameter) ;;
  v0 <- lift (first vs) ;;
  prim_type <- lift (py_get v0 (SStr "type") VNone) ;;
  valid <- config_get prim_types ;;
  if negb (value_in prim_type valid) && negb (is_none prim_type) then
    invalid "'{0}' is not a valid primative parameter type" [prim_type]
  else ret tt.

(** [__query_params], [__uri_params_resource] and [__form_params] are the
    same text in the source but for the property they read. *)
Definition params_rule (property : string) : rule := fun resource args =>
  resource <- deref resource ;;
  d <- lift (attr_data resource) ;;
  resource_params <- lift (py_get d (SStr property) (VDict [])) ;;
  method_params <-
    (if hasattr_orig_method resource then
       d <- lift (attr_data resource) ;;
       m <- lift (attr_orig_method resource) ;;
       x <- lift (py_get d m (VDict [])) ;;
       lift (py_get x (SStr property) (VDict []))
     else if hasattr_method resource then
       d <- lift (attr_data resource) ;;
       m <- lift (attr_method resource) ;;
       x <- lift (py_get d m VNone) ;;
       if negb (is_none x) then
         x <- lift (py_get d m (VDict [])) ;;
         lift (py_get x (SStr property) (VDict []))
       else ret (VDict [])
     else ret (VDict [])) ;;
  mi <- lift (py_items method_params) ;;
  ri <- lift (py_items resource_params) ;;
  let params := dict_of_items (mi ++ ri) in
  if list_truthy params then __primative_parameter (VDict params)
  else ret tt.

Definition __query_params : rule := params_rule "queryParameters".

Definition __uri_params_resource : rule := params_rule "uriParameters".

Definition __form_params : rule := params_rule "formParameters".

Definition __headers : rule := fun resource args => ret tt.

(** The second test on the object is an [if], not an [elif]: the value
    read through [orig_method] is computed and then overwritten. *)
Definition __body : rule := fun resource args =>
  resource <- deref resource ;;
  body <- (if hasattr_orig_method resource then
             d <- lift (attr_data resource) ;;
             m <- lift (attr_orig_method resource) ;;
             x <- lift (py_get d m (VDict [])) ;;
             b <- lift (py_get x (SStr "body") (VDict [])) ;;
             ret (Some b)
           else ret None) ;;
  body <- (if hasattr_method resource then
             d <- lift (attr_data resource) ;;
             m <- lift (attr_method resource) ;;
             x <- lift (py_get d m VNone) ;;
             if negb (is_none x) then
               x <- lift (py_get d m (VDict [])) ;;
               lift (py_get x (SStr "body") (VDict []))
             else
               lift (py_get d (SStr "body") (VDict []))
           else
             d <- lift (attr_data resource) ;;
             lift (py_get d (SStr "body") (VDict []))) ;;
  __body_media_type body.

Definition __description : rule := fun resource args => ret tt.

Definition __base_uri_params_resource : rule := fun resource args => ret tt.

(** The tail shared by [__set_type] and [__resource_type]: what follows
    the [if not assigned: return] of each. *)
Definition check_assigned (resource : pyobj) (assigned : value) (args : list arg)
  : M unit :=
  (if isinstance_dict assigned || isinstance_list assigned then
     n <- lift (py_len assigned) ;;
     if (1 <? n)%nat then
       nm <- lift (attr_name resource) ;;
       invalid "Too many resource types applied to '{0}'." [nm]
     else ret tt
   else ret tt) ;;
  assigned <- (if isinstance_dict assigned then
                 ks <- lift (iterkeys assigned) ;;
                 k <- lift (first ks) ;;
                 ret (VScalar k)
               else if isinstance_list assigned then
                 lift (py_item0 assigned)
               else ret assigned) ;;
  root <- lift (first args) ;;
  root <- deref root ;;
  rts <- lift (attr_resource_types root) ;;
  valid_resource_types <- lift (names_of rts) ;;
  if negb (value_in assigned valid_resource_types) then
    invalid "'{0}' is not defined in resourceTypes" [assigned]
  else ret tt.

Definition __set_type : rule := fun resource args =>
  resource <- deref resource ;;
  d <- lift (attr_data resource) ;;
  assigned <- lift (py_get d (SStr "type") VNone) ;;
  if negb (truthy assigned) then ret tt
  else check_assigned resource assigned args.

Definition __resource_type : rule := fun resource args =>
  resource <- deref resource ;;
  t <- lift (attr_type resource) ;;
  if negb (truthy t) then ret tt
  else check_assigned resource t args.

Definition __secured_by : rule := fun resource args =>
  resource <- deref resource ;;
  d <- lift (attr_data resource) ;;
  securedBy <- lift (py_get d (SStr "securedBy") VNone) ;;
  if negb (truthy securedBy) then ret tt
  else
    root <- lift (first args) ;;
    root <- deref root ;;
    schemes <- lift (attr_security_schemes root) ;;
    if negb (nodes_truthy schemes) then
      nm <- lift (attr_name resource) ;;
      invalid "No Security Schemes are defined in RAML file but {0} scheme is assigned to '{1}'." [securedBy; nm]
    else
      ss <- lift (py_iter securedBy) ;;
      for_each ss (fun s =>
        scheme <- (if isinstance_dict s then
                     ks <- lift (iterkeys s) ;;
                     k <- lift (first ks) ;;
                     ret (VScalar k)
                   else ret s) ;;
        scheme_names <- lift (names_of schemes) ;;
        if negb (value_in scheme scheme_names) then
          nm <- lift (attr_name resource) ;;
          invalid "'{0}' is applied to '{1}' but is not defined in the securitySchemes" [scheme; nm]
        else ret tt).

(** ** Security Scheme validation *)

Definition oauth2_attrs : list string :=
  ["authorizationUri"; "accessTokenUri"; "authorizationGrants"; "scopes"].

Definition oauth1_attrs : list string :=
  ["requestTokenUri"; "authorizationUri"; "tokenCredentialsUri"].

Definition __security_settings : rule := fun scheme args =>
  scheme <- deref scheme ;;
  d <- lift (attr_data scheme) ;;
  settings <- lift (py_get d (SStr "settings") VNone) ;;
  if negb (truthy settings) then ret tt
  else
    attrs <- lift (iterkeys settings) ;;
    t <- lift (attr_type scheme) ;;
    (if value_eq_scalar t (SStr "OAuth 2.0") then
       for_each oauth2_attrs (fun attr =>
         if negb (scalar_in (SStr attr) attrs) then
           invalid "Need to defined '{0}' in securitySchemas settings for a valid OAuth 2.0 scheme" [VStr attr]
         else ret tt)
     else ret tt) ;;
    t <- lift (attr_type scheme) ;;
    if value_eq_scalar t (SStr "OAuth 1.0") then
      for_each oauth1_attrs (fun attr =>
        if negb (scalar_in (SStr attr) attrs) then
          invalid "Need to defined '{0}' in securitySchemas settings for a valid OAuth 1.0 scheme" [VStr attr]
        else ret tt)
    else ret tt.

(** Require that RAML actually *defines* at least one Resource. *)
Definition __has_resources : rule := fun resources args =>
  resources <- deref resources ;;
  bad <- (if negb (obj_truthy resources) then ret true
          else n <- lift (obj_len resources) ;; ret (n <? 1)%nat) ;;
  if bad : bool then invalid "No resources are defined." []
  else ret tt.

(** ** Helper/mapping functions *)

Fixpoint assoc {A} (k : string) (table : list (string * A)) : option A :=
  match table with
  | [] => None
  | (k', x) :: table' => if k' =? k then Some x else assoc k table'
  end.

Definition validate_func_table : list (string * rule) :=
  [ ("_set_base_uri", __base_uri);
    ("_set_version", __version);
    ("__raml_header", __raml_header);
    ("_set_title", __api_title);
    ("_set_docs", __documentation);
    ("_set_base_uri_params", __base_uri_params);
    ("_set_schemas", __schemas);
    ("_set_protocols", __protocols);
    ("_set_media_type", __media_type);
    ("_parse_security_schemes", __security_schemes);
    ("_set_uri_params", __uri_params);
    ("__get_resource_type", __resource_type);
    ("__set_settings_dict", __security_settings);
    ("__get_secured_by", __secured_by);
    ("__add_properties_to_resources", __has_resources);
    ("__set_type", __set_type) ].

Definition validate_prop_table : list (string * rule) :=
  [ ("responses", __responses);
    ("queryParameters", __query_params);
    ("uriParameters", __uri_params_resource);
    ("formParameters", __form_params);
    ("headers", __headers);
    ("body", __body);
    ("description", __description);
    ("mediaType", __media_type);
    ("baseUriParameters", __base_uri_params_resource) ].

(** [table[key]]: a missing key is a [KeyError], a sequence or mapping
    used as a key is unhashable. *)
Definition subscript {A} (table : list (string * A)) (key : pyobj) : M A :=
  match key with
  | OValue (VStr s) =>
      match assoc s table with
      | Some x => ret x
      | None => raise KeyError
      end
  | OValue (VList _) | OValue (VDict _) => raise TypeError
  | _ => raise KeyError
  end.

Definition __map_to_validate_func (func_name : string) : M rule :=
  subscript validate_func_table (OValue (VStr func_name)).

Definition __map_to_validate_prop (property : pyobj) : M rule :=
  subscript validate_prop_table property.

(** ** Decorator functions *)

(** A construction operation: its [__name__] and what calling it with a
    first positional argument and the remaining ones does. *)
Record pyfunc (R : Type) : Type := mkFunc {
  __name__ : string;
  call : arg -> list arg -> M R
}.
Arguments mkFunc {R} _ _.
Arguments __name__ {R} _.
Arguments call {R} _ _ _.

(** [os.environ.get('RAML_VALIDATE') == '1'] and, when that is false,
    [config.get('main', 'validate') == 'True']. *)
Definition enabled : M bool :=
  e <- os_environ_get "RAML_VALIDATE" ;;
  let validate := match e with Some s => s =? "1" | None => false end in
  if negb validate then
    v <- config_get main_validate ;;
    ret (v =? "True")
  else ret validate.

(** Validate item according to RAML spec. *)
Definition validate {R} (func : pyfunc R) : pyfunc R :=
  mkFunc (__name__ func) (fun raml args =>
    validate <- enabled ;;
    (if validate : bool then
       check <- __map_to_validate_func (__name__ func) ;;
       check raml args
     else ret tt) ;;
    call func raml args).

(** Validate property for Trait, ResourceType, or Resource according to
    RAML spec.  The wrapper's second positional parameter is [property]. *)
Definition validate_property {R} (func : pyfunc R) : pyfunc R :=
  mkFunc (__name__ func) (fun resource args =>
    match args with
    | [] => raise TypeError
    | property :: args' =>
        validate <- enabled ;;
        (if validate : bool then
           property <- deref property ;;
           check <- __map_to_validate_prop property ;;
           check resource args'
         else ret tt) ;;
        call func resource (property :: args')
    end).

(** ** Specification vocabulary *)

(** A computation is read-only when it hands back the process state it was
    given, whether it returns or raises. *)
Definition read_only {A} (m : M A) : Prop :=
  forall w, snd (m w) = w.

Definition read_only_rule (r : rule) : Prop :=
  forall obj args, read_only (r obj args).

(** ** Sample process states *)

Definition sample_cfg : cfg :=
  mkCfg "False"
        [SStr "0.8"; SStr "1.0"]
        [SStr "HTTP"; SStr "HTTPS"]
        [SStr "text/xml"]
        [SStr "string"; SStr "number"; SStr "integer"; SStr "date";
         SStr "boolean"; SStr "file"]
        [SStr "oauth_2_0"; SStr "oauth_1_0"]
        [SInt 200; SInt 404].

(** A state with the given objects at references 0, 1, 2, ... and no
    environment variable set. *)
Definition sample_world (objs : list pyobj) (fs : list (string * string)) : world :=
  mkWorld (fun l => nth l objs (OValue VNone))
          (fun _ => None)
          sample_cfg
          (fun nm => match nm with
                     | ByPath p => assoc p fs
                     | ByFd _ => None
                     end).

(** The same state with [RAML_VALIDATE=1]. *)
Definition with_flag (w : world) : world :=
  mkWorld (heap w)
          (fun k => if k =? "RAML_VALIDATE" then Some "1" else environ w k)
          (config w)
          (files w).

(** Truth value of a positional argument in a given state. *)
Definition arg_truthy (w : world) (a : arg) : bool :=
  obj_truthy (match a with Imm c => OValue (VScalar c) | Ref l => heap w l end).

(** A construction step to wrap in the examples: it reads the base URI
    off the document and returns it. *)
Definition sample_set_base_uri : pyfunc value :=
  mkFunc "_set_base_uri" (fun raml args =>
    raml <- deref raml ;;
    lift (obj_get raml (SStr "baseUri") VNone)).

(** A construction step on a property of a resource-like object: it
    returns the object's raw data. *)
Definition sample_set_property : pyfunc value :=
  mkFunc "_set_property" (fun resource args =>
    resource <- deref resource ;;
    lift (attr_data resource)).

(** The error both media-type checks raise. *)
Definition unsupported (media_type : string) : exn :=
  InvalidRamlFileError "Unsupported MIME Media Type: '{0}'." [VStr media_type].

(** Membership in the configured exact-match set. *)
Definition known_media_type (w : world) (media_type : string) : bool :=
  value_in (VStr media_type) (media_types (config w)).

(** A trait-like view whose body declares an unsupported media type. *)
Definition sample_trait : node :=
  mkNode (SStr "paged") None None
         (VDict [(SStr "body", VDict [(SStr "text/plain", VDict [])])])
         VNone.

(** A resource-type view bound to [get]: it exposes [orig_method] and no
    [method], and declares a body under the method only. *)
Definition sample_type_view : node :=
  mkNode (SStr "collection") None (Some (SStr "get"))
         (VDict [(SStr "get",
                  VDict [(SStr "body", VDict [(SStr "text/plain", VDict [])])])])
         VNone.

(** A path [os.stat] and [open] take to the file system: not empty, and
    with no NUL character in it. *)
Definition usable_path (p : string) : bool :=
  negb (p =? "") && negb (has_nul p).

(** A line of text: no newline in it. *)
Fixpoint no_newline (h : string) : bool :=
  match h with
  | "" => true
  | String c h' => negb (c =? newline)%char && no_newline h'
  end.

(** What the Header rule concludes from the first line [h] of a file that
    is not empty and from the text [rest] after that line. *)
Definition header_outcome (versions : list scalar) (h rest : string)
  : outcome unit :=
  if h =? "" then
    Raise (InvalidRamlFileError
             "RAML header empty. Please make sure the first line of the file contains a valid RAML file definition." [])
  else
    match split_ws h with
    | [raml_def; version] =>
        if negb (raml_def =? "#%RAML") then
          Raise (InvalidRamlFileError "Not a valid RAML header: {0}." [VStr raml_def])
        else if negb (scalar_in (SStr version) versions) then
          Raise (InvalidRamlFileError "Not a valid version of RAML: {0}." [VStr version])
        else if rest =? "" then
          Raise (InvalidRamlFileError "No RAML data to parse." [])
        else Ok tt
    | _ => Raise (InvalidRamlFileError "Not a valid RAML header: {0}." [VStr h])
    end.

(** The same state with another list of valid RAML versions. *)
Definition with_versions (versions : list scalar) (w : world) : world :=
  mkWorld (heap w)
          (environ w)
          (mkCfg (main_validate (config w)) versions (protocols (config w))
                 (media_types (config w)) (prim_types (config w))
                 (auth_schemes (config w)) (resp_codes (config w)))
          (files w).

(** The first of the required setting names that is not among the keys
    of the settings, if any. *)
Definition first_missing (required : list string) (attrs : list scalar)
  : option string :=
  find (fun attr => negb (scalar_in (SStr attr) attrs)) required.

(** The outcome of a pass over the required names that raises at the
    first one missing. *)
Definition require_all (fmt : string) (required : list string)
    (attrs : list scalar) : outcome unit :=
  match first_missing required attrs with
  | None => Ok tt
  | Some attr => Raise (InvalidRamlFileError fmt [VStr attr])
  end.

Definition oauth2_fmt : string :=
  "Need to defined '{0}' in securitySchemas settings for a valid OAuth 2.0 scheme".

Definition oauth1_fmt : string :=
  "Need to defined '{0}' in securitySchemas settings for a valid OAuth 1.0 scheme".

(** A sequence or mapping with two entries or more. *)
Definition too_many (assigned : value) : bool :=
  match assigned with
  | VList l => (1 <? List.length l)%nat
  | VDict d => (1 <? List.length d)%nat
  | VScalar _ => false
  end.

(** The resource types the root declares; none when the collection is
    [None]. *)
Definition declared_resource_types (rt : root) : list node :=
  match resource_types rt with
  | Some l => l
  | None => []
  end.


(** [heap[l] = o]: the write a construction step may perform, and that no
    rule uses. *)
Definition store (l : nat) (o : pyobj) : M unit :=
  fun w =>
    (Ok tt,
     mkWorld (fun l' => if (l' =? l)%nat then o else heap w l')
             (environ w) (config w) (files w)).

(** [data.get('body', {})] *)
Definition direct_body (d : list (scalar * value)) : value :=
  match dict_lookup d (SStr "body") with
  | Some b => b
  | None => VDict []
  end.

(** [os.environ.get('RAML_VALIDATE') == '1'] in a given state. *)
Definition env_flag (w : world) : bool :=
  match environ w "RAML_VALIDATE" with
  | Some s => s =? "1"
  | None => false
  end.

(** [entry.get(k)] for an entry that is a mapping. *)
Definition field (entry : value) (k : string) : value :=
  match entry with
  | VDict e =>
      match dict_lookup e (SStr k) with
      | Some x => x
      | None => VNone
      end
  | _ => VNone
  end.

(** A documentation entry with a title and a content. *)
Definition doc_complete (entry : value) : bool :=
  truthy (field entry "title") && truthy (field entry "content").

(** [k in v] for a mapping [v]. *)
Definition has_key (v : value) (k : string) : bool :=
  match v with
  | VDict e => scalar_in (SStr k) (map fst e)
  | _ => false
  end.

(** The name a security-scheme declaration goes by: the first key of a
    mapping whose first key is a string. *)
Definition scheme_name (s : value) : option string :=
  match s with
  | VDict ((SStr nm, _) :: _) => Some nm
  | _ => None
  end.

(** Every character of [s] is in the class of the media-type pattern. *)
Fixpoint all_in_class (s : string) : bool :=
  match s with
  | "" => true
  | String c s' => Regex.in_class c && all_in_class s'
  end.








(** The scheme a [securedBy] entry refers to: the first key of a mapping,
    the entry itself otherwise. *)
Definition scheme_ref (s : value) : value :=
  match s with
  | VDict ((k, _) :: _) => VScalar k
  | _ => s
  end.

(** The names of the security schemes the root declares. *)
Definition declared_schemes (rt : root) : list scalar :=
  match security_schemes rt with
  | Some l => map name l
  | None => []
  end.

(** The characters the class of the media-type pattern admits, written
    out: the letters, then '.', '/', '0', '-' and '1'. *)
Definition class_alphabet : string :=
  "ABCDEFGHIJKLMNOPQRSTUVWXYZabcdefghijklmnopqrstuvwxyz./0-1".

(** * Properties *)

(** ** Validation reads, and nothing else *)

Section ReadOnly.

Context {A B : Type}.

Lemma ro_ret (a : A) : read_only (ret a).
Proof. intro w; reflexivity. Qed.

Lemma ro_raise (e : exn) : read_only (@raise A e).
Proof. intro w; reflexivity. Qed.

Lemma ro_invalid fmt args : read_only (@invalid A fmt args).
Proof. intro w; reflexivity. Qed.

Lemma ro_lift (o : outcome A) : read_only (lift o).
Proof. intro w; reflexivity. Qed.

Lemma ro_bind (m : M A) (k : A -> M B) :
  read_only m -> (forall a, read_only (k a)) -> read_only (bind m k).
Proof.
  intros Hm Hk w. unfold bind.
  specialize (Hm w). destruct (m w) as [[a | e] w']; simpl in Hm; subst w'.
  - apply Hk.
  - reflexivity.
Qed.

Lemma ro_config_get (field : cfg -> A) : read_only (config_get field).
Proof. intro w; reflexivity. Qed.

Lemma ro_try_except (m handler : M A) :
  read_only m -> read_only handler ->
  read_only (try_except_ValueError m handler).
Proof.
  intros Hm Hh w. unfold try_except_ValueError.
  specialize (Hm w). destruct (m w) as [[a | e] w']; simpl in Hm; subst w'.
  - reflexivity.
  - destruct e; try reflexivity. apply Hh.
Qed.

Lemma ro_subscript (table : list (string * A)) (key : pyobj) :
  read_only (subscript table key).
Proof.
  intro w. unfold subscript.
  destruct key as [[[ | | | s] | | ] | | | ]; try reflexivity.
  destruct (assoc s table); reflexivity.
Qed.

End ReadOnly.

Lemma ro_for_each {A} (xs : list A) (body : A -> M unit) :
  (forall x, read_only (body x)) -> read_only (for_each xs body).
Proof.
  intro Hb. induction xs as [| x xs IH]; simpl.
  - apply ro_ret.
  - apply ro_bind; [apply Hb | intros _; exact IH].
Qed.

Lemma ro_map_m {A B} (f : A -> M B) (xs : list A) :
  (forall x, read_only (f x)) -> read_only (map_m f xs).
Proof.
  intro Hf. induction xs as [| x xs IH]; simpl.
  - apply ro_ret.
  - apply ro_bind; [apply Hf | intros y].
    apply ro_bind; [exact IH | intros ys; apply ro_ret].
Qed.

Lemma ro_deref (a : arg) : read_only (deref a).
Proof. intro w; reflexivity. Qed.

Lemma ro_os_environ_get (k : string) : read_only (os_environ_get k).
Proof. intro w; reflexivity. Qed.

Lemma ro_getsize (path : pyobj) : read_only (getsize path).
Proof.
  intro w. unfold getsize.
  destruct (fsname_of path) as [nm |]; [| reflexivity].
  destruct (lookup_file w nm); reflexivity.
Qed.

Lemma ro_open (path : pyobj) : read_only (open path).
Proof.
  intro w. unfold open.
  destruct (fsname_of path) as [[p | fd] |]; [| | reflexivity].
  - destruct (lookup_file w (ByPath p)); reflexivity.
  - destruct (fd <? 0)%Z; [reflexivity |].
    destruct (lookup_file w (ByFd fd)); reflexivity.
Qed.

Lemma ro_no_more_args (args : list arg) : read_only (no_more_args args).
Proof. destruct args; intro w; reflexivity. Qed.

Create HintDb ro discriminated.
#[local] Hint Resolve ro_deref ro_os_environ_get ro_getsize ro_open
  ro_no_more_args : ro.
#[local] Hint Resolve ro_ret ro_raise ro_invalid ro_lift ro_config_get
  ro_subscript : ro.

(** One step of the syntax-directed argument: a sequencing, a loop, or a
    case distinction on what was read. *)
Ltac ro_step :=
  match goal with
  | |- read_only (bind _ _) => apply ro_bind; [| intros ?]
  | |- read_only (for_each _ _) => apply ro_for_each; intros ?
  | |- read_only (map_m _ _) => apply ro_map_m; intros ?
  | |- read_only (try_except_ValueError _ _) => apply ro_try_except
  | |- read_only (if ?b then _ else _) => destruct b
  | |- read_only (let (_, _) := ?p in _) => destruct p
  | |- read_only (match ?x with _ => _ end) => destruct x
  | |- read_only _ => solve [auto with ro]
  end.

Ltac ro := repeat ro_step.

Lemma ro_check_media_type v : read_only (__check_media_type v).
Proof. unfold __check_media_type. ro. Qed.

Lemma ro_body_media_type body : read_only (__body_media_type body).
Proof. unfold __body_media_type. ro. apply ro_check_media_type. Qed.

Lemma ro_primative_parameter p : read_only (__primative_parameter p).
Proof. unfold __primative_parameter. ro. Qed.

#[local] Hint Resolve ro_check_media_type ro_body_media_type
  ro_primative_parameter : ro.

Lemma ro_params_rule property : read_only_rule (params_rule property).
Proof. intros obj args. unfold params_rule. ro. Qed.

Lemma ro_check_assigned resource assigned args :
  read_only (check_assigned resource assigned args).
Proof. unfold check_assigned. ro. Qed.

#[local] Hint Resolve ro_check_assigned : ro.

Lemma ro_func_table : Forall read_only_rule (map snd validate_func_table).
Proof.
  unfold validate_func_table; simpl.
  repeat (apply Forall_cons;
          [ intros obj args;
            match goal with |- read_only (?r _ _) => unfold r end; ro | ]).
  apply Forall_nil.
Qed.

Lemma ro_prop_table : Forall read_only_rule (map snd validate_prop_table).
Proof.
  unfold validate_prop_table; simpl.
  repeat (apply Forall_cons;
          [ intros obj args;
            first [ apply ro_params_rule
                  | match goal with |- read_only (?r _ _) => unfold r end; ro ] | ]).
  apply Forall_nil.
Qed.

(** The property is not vacuous: the monad can write. *)
Lemma store_is_not_read_only :
  ~ read_only (store 0 (OValue (VBool true))).
Proof.
  intro H. specialize (H (sample_world [] [])).
  apply (f_equal (fun w => heap w 0)) in H. discriminate H.
Qed.

(** C9.  Every rule of the two registries, and every helper the rules
    call, hands back the process state it was given, on every input and
    whether it returns or raises: the heap that holds the Document, the
    Root and the resource-like objects is the one it received. *)
Theorem validation_never_mutates :
  (forall r : rule,
      In r (map snd validate_func_table ++ map snd validate_prop_table) ->
      forall obj args w, snd (r obj args w) = w)
  /\ (forall media_type w, snd (__check_media_type media_type w) = w)
  /\ (forall body w, snd (__body_media_type body w) = w)
  /\ (forall parameter w, snd (__primative_parameter parameter w) = w).
Proof.
  split; [| split; [| split]].
  - intros r Hr obj args.
    apply in_app_or in Hr. destruct Hr as [Hr | Hr].
    + pose proof ro_func_table as F. rewrite Forall_forall in F.
      exact (F r Hr obj args).
    + pose proof ro_prop_table as F. rewrite Forall_forall in F.
      exact (F r Hr obj args).
  - exact ro_check_media_type.
  - exact ro_body_media_type.
  - exact ro_primative_parameter.
Qed.

Lemma validation_never_mutates_witness :
  let w := sample_world [OValue (VDict [])] [] in
  snd (__base_uri (Ref 0) [] w) = w.
Proof.
  intro w.
  apply (proj1 validation_never_mutates __base_uri).
  simpl. left. reflexivity.
Defined.

(** ** The validation decorators *)

Lemma assoc_In {A} (k : string) (table : list (string * A)) (x : A) :
  assoc k table = Some x -> In x (map snd table).
Proof.
  induction table as [| [k' y] table IH]; simpl; intro H.
  - discriminate.
  - destruct (k' =? k).
    + left. congruence.
    + right. exact (IH H).
Qed.

Lemma registered_func_read_only name check :
  assoc name validate_func_table = Some check -> read_only_rule check.
Proof.
  intro H. pose proof ro_func_table as F. rewrite Forall_forall in F.
  apply F. exact (assoc_In _ _ _ H).
Qed.

Lemma registered_prop_read_only name check :
  assoc name validate_prop_table = Some check -> read_only_rule check.
Proof.
  intro H. pose proof ro_prop_table as F. rewrite Forall_forall in F.
  apply F. exact (assoc_In _ _ _ H).
Qed.

Lemma enabled_off w :
  environ w "RAML_VALIDATE" <> Some "1" ->
  main_validate (config w) <> "True" ->
  enabled w = (Ok false, w).
Proof.
  intros He Hc. unfold enabled, bind, os_environ_get, config_get, ret.
  destruct (environ w "RAML_VALIDATE") as [s |] eqn:E.
  - destruct (String.eqb_spec s "1") as [-> | Hs]; [congruence |].
    simpl. destruct (String.eqb_spec (main_validate (config w)) "True");
      [contradiction | reflexivity].
  - simpl. destruct (String.eqb_spec (main_validate (config w)) "True");
      [contradiction | reflexivity].
Qed.

Lemma enabled_by_flag w :
  environ w "RAML_VALIDATE" = Some "1" ->
  enabled w = (Ok true, w).
Proof.
  intro He. unfold enabled, bind, os_environ_get, config_get, ret.
  rewrite He. reflexivity.
Qed.

(** C1.  With the environment flag different from "1" and the persistent
    value different from "True", a wrapped operation is the operation
    itself, on every argument and in every state: no rule decides anything,
    nothing is raised by the wrapper, and the operation's result comes back
    as it is.  With the flag equal to "1" the registered rule runs first,
    whatever the persistent value: its error propagates, and otherwise the
    operation runs. *)
Theorem gate_skips_or_runs_rule {R} (func : pyfunc R) (obj : arg)
    (args : list arg) (w : world) :
  (environ w "RAML_VALIDATE" <> Some "1" ->
   main_validate (config w) <> "True" ->
   call (validate func) obj args w = call func obj args w
   /\ forall property,
        call (validate_property func) obj (property :: args) w
        = call func obj (property :: args) w)
  /\
  (environ w "RAML_VALIDATE" = Some "1" ->
   (forall check,
       assoc (__name__ func) validate_func_table = Some check ->
       call (validate func) obj args w =
         match check obj args w with
         | (Ok _, _) => call func obj args w
         | (Raise e, _) => (Raise e, w)
         end)
   /\
   (forall p check,
       assoc p validate_prop_table = Some check ->
       call (validate_property func) obj (Imm (SStr p) :: args) w =
         match check obj args w with
         | (Ok _, _) => call func obj (Imm (SStr p) :: args) w
         | (Raise e, _) => (Raise e, w)
         end)).
Proof.
  split.
  - intros He Hc. pose proof (enabled_off w He Hc) as Hoff.
    split; [| intro property]; simpl; unfold bind; rewrite Hoff; reflexivity.
  - intro He. pose proof (enabled_by_flag w He) as Hon.
    split.
    + intros check Hcheck.
      pose proof (registered_func_read_only _ _ Hcheck obj args w) as Hro.
      simpl. unfold bind at 1. rewrite Hon.
      unfold bind, __map_to_validate_func, subscript. rewrite Hcheck.
      simpl. destruct (check obj args w) as [[[] | e] w']; simpl in Hro;
        subst w'; reflexivity.
    + intros p check Hcheck.
      pose proof (registered_prop_read_only _ _ Hcheck obj args w) as Hro.
      simpl. unfold bind at 1. rewrite Hon.
      unfold bind, deref, __map_to_validate_prop, subscript. rewrite Hcheck.
      simpl. destruct (check obj args w) as [[[] | e] w']; simpl in Hro;
        subst w'; reflexivity.
Qed.

Lemma gate_skips_or_runs_rule_witness :
  let w := sample_world [OValue (VDict []); ONode sample_trait] [] in
  (call (validate sample_set_base_uri) (Ref 0) [] w = (Ok VNone, w)
   /\ call (validate_property sample_set_property) (Ref 1) [Imm (SStr "body")] w
      = (Ok (data sample_trait), w))
  /\ (call (validate sample_set_base_uri) (Ref 0) [] (with_flag w)
      = (Raise (InvalidRamlFileError "RAML File does not define the baseUri." []),
         with_flag w)
      /\ call (validate_property sample_set_property) (Ref 1) [Imm (SStr "body")]
           (with_flag w)
         = (Raise (unsupported "text/plain"), with_flag w)).
Proof.
  intro w. split.
  - destruct (gate_skips_or_runs_rule sample_set_base_uri (Ref 0) [] w)
      as [Hoff _].
    destruct (gate_skips_or_runs_rule sample_set_property (Ref 1) [] w)
      as [Hoff' _].
    split.
    + destruct Hoff as [H _]; [simpl; discriminate | simpl; discriminate |].
      rewrite H. reflexivity.
    + destruct Hoff' as [_ H]; [simpl; discriminate | simpl; discriminate |].
      rewrite H. reflexivity.
  - destruct (gate_skips_or_runs_rule sample_set_base_uri (Ref 0) []
                (with_flag w)) as [_ Hon].
    destruct (gate_skips_or_runs_rule sample_set_property (Ref 1) []
                (with_flag w)) as [_ Hon'].
    split.
    + destruct Hon as [H _]; [reflexivity |].
      rewrite (H __base_uri); reflexivity.
    + destruct Hon' as [_ H]; [reflexivity |].
      rewrite (H "body" __body); reflexivity.
Defined.

(** ** The media-type predicate *)

Lemma check_media_type_string w s :
  __check_media_type (VStr s) w =
    (if known_media_type w s
        || value_in (VStr s) [SStr "schema"; SStr "example"]
        || Regex.search s
     then Ok tt else Raise (unsupported s), w).
Proof.
  unfold __check_media_type, known_media_type, bind, config_get, lift, re_search.
  destruct (value_in (VStr s) (media_types (config w))); [reflexivity |].
  destruct (value_in (VStr s) [SStr "schema"; SStr "example"]); [reflexivity |].
  simpl. destruct (Regex.search s); reflexivity.
Qed.

Lemma media_type_string w l d s :
  heap w l = OValue (VDict d) ->
  dict_lookup d (SStr "mediaType") = Some (VStr s) ->
  __media_type (Ref l) [] w =
    (if (s =? "") || known_media_type w s || Regex.search s
     then Ok tt else Raise (unsupported s), w).
Proof.
  intros Hl Hd.
  unfold __media_type, known_media_type, bind, config_get, lift, deref,
    re_search. simpl.
  rewrite Hl. simpl. rewrite Hd. simpl.
  destruct (s =? ""); [reflexivity |]. simpl.
  destruct (value_in (VStr s) (media_types (config w))); [reflexivity |].
  simpl. destruct (Regex.search s); reflexivity.
Qed.

(** C2, refuted as stated: "application/vnd.api+json" does not match the
    pattern, whose character class has no '+'; with an exact-match set
    that does not list it, both checks reject it. *)
Lemma vnd_api_json_is_rejected :
  let w := sample_world
             [OValue (VDict [(SStr "mediaType", VStr "application/vnd.api+json")])]
             [] in
  Regex.search "application/vnd.api+json" = false
  /\ __check_media_type (VStr "application/vnd.api+json") w
     = (Raise (unsupported "application/vnd.api+json"), w)
  /\ __media_type (Ref 0) [] w
     = (Raise (unsupported "application/vnd.api+json"), w).
Proof.
  intro w. repeat split; reflexivity.
Qed.

(** C2, amended.  "application/json" passes both checks, by the pattern
    if not by exact match.  "application/vnd.api+json" and "text/plain"
    do not match the pattern: each passes exactly when it is in the
    configured exact-match set.  "schema" always passes the body-specific
    check; the root-level rule accepts it only from the exact-match set. *)
Theorem media_type_predicate (w : world) (l : nat) (d : list (scalar * value))
    (s : string) :
  heap w l = OValue (VDict d) ->
  dict_lookup d (SStr "mediaType") = Some (VStr s) ->
  (__check_media_type (VStr "application/json") w = (Ok tt, w)
   /\ (s = "application/json" -> __media_type (Ref l) [] w = (Ok tt, w)))
  /\ (forall v, v = "application/vnd.api+json" \/ v = "text/plain" ->
        Regex.search v = false
        /\ __check_media_type (VStr v) w
           = (if known_media_type w v then Ok tt else Raise (unsupported v), w)
        /\ (s = v ->
            __media_type (Ref l) [] w
            = (if known_media_type w v then Ok tt else Raise (unsupported v), w)))
  /\ (__check_media_type (VStr "schema") w = (Ok tt, w)
      /\ (s = "schema" ->
          __media_type (Ref l) [] w
          = (if known_media_type w "schema" then Ok tt
             else Raise (unsupported "schema"), w))).
Proof.
  intros Hl Hd.
  pose proof (media_type_string w l d s Hl Hd) as Hroot.
  split; [| split].
  - split.
    + rewrite check_media_type_string.
      replace (Regex.search "application/json") with true by reflexivity.
      rewrite !orb_true_r. reflexivity.
    + intros ->. rewrite Hroot.
      replace (Regex.search "application/json") with true by reflexivity.
      rewrite !orb_true_r. reflexivity.
  - intros v [-> | ->]; (split; [reflexivity | split]).
    + rewrite check_media_type_string. simpl.
      rewrite !orb_false_r. reflexivity.
    + intros ->. rewrite Hroot. simpl. rewrite !orb_false_r. reflexivity.
    + rewrite check_media_type_string. simpl.
      rewrite !orb_false_r. reflexivity.
    + intros ->. rewrite Hroot. simpl. rewrite !orb_false_r. reflexivity.
  - split.
    + rewrite check_media_type_string. simpl.
      rewrite orb_true_r. reflexivity.
    + intros ->. rewrite Hroot. simpl. rewrite !orb_false_r. reflexivity.
Qed.

Lemma media_type_predicate_witness :
  let w := sample_world [OValue (VDict [(SStr "mediaType", VStr "schema")])] [] in
  __check_media_type (VStr "schema") w = (Ok tt, w)
  /\ __media_type (Ref 0) [] w = (Raise (unsupported "schema"), w).
Proof.
  intro w.
  destruct (media_type_predicate w 0 [(SStr "mediaType", VStr "schema")] "schema")
    as [_ [_ [Hbody Hroot]]].
  - reflexivity.
  - reflexivity.
  - split.
    + exact Hbody.
    + rewrite (Hroot eq_refl). reflexivity.
Defined.

(** ** The Body rule *)

(** What the rule validates for an object that exposes [orig_method] and
    no [method]: the body declared directly under [data]. *)
Lemma body_of_type_view w l n d m args :
  heap w l = ONode n ->
  orig_method n = Some m ->
  method n = None ->
  data n = VDict d ->
  (forall x, dict_lookup d m = Some x -> isinstance_dict x = true) ->
  __body (Ref l) args w = __body_media_type (direct_body d) w.
Proof.
  intros Hl Hom Hm Hd Hx.
  unfold __body, bind, lift, deref, hasattr_orig_method, hasattr_method,
    attr_data, attr_orig_method, direct_body. simpl.
  rewrite Hl, Hom, Hm, Hd. simpl.
  destruct (dict_lookup d m) as [x |] eqn:E.
  - specialize (Hx x eq_refl). destruct x; try discriminate. reflexivity.
  - reflexivity.
Qed.

(** Without [orig_method] the rule follows the stated precedence: the body
    under [data[method]] when the object has a [method] and [data[method]]
    is not [None], the body directly under [data] otherwise. *)
Lemma body_without_orig_method w l n d args :
  heap w l = ONode n ->
  orig_method n = None ->
  data n = VDict d ->
  __body (Ref l) args w =
    match method n with
    | Some m =>
        match dict_lookup d m with
        | Some x =>
            if is_none x then __body_media_type (direct_body d) w
            else (b <- lift (py_get x (SStr "body") (VDict [])) ;;
                  __body_media_type b) w
        | None => __body_media_type (direct_body d) w
        end
    | None => __body_media_type (direct_body d) w
    end.
Proof.
  intros Hl Hom Hd.
  unfold __body, bind, lift, deref, hasattr_orig_method, hasattr_method,
    attr_data, attr_method, direct_body. simpl.
  rewrite Hl, Hom, Hd. simpl.
  destruct (method n) as [m |]; simpl; [| reflexivity].
  destruct (dict_lookup d m) as [x |]; simpl; [| reflexivity].
  destruct (is_none x); reflexivity.
Qed.

(** C3, at the failing input.  The view exposes [orig_method] and no
    [method]; its [data['get']['body']] has the unsupported key
    "text/plain" and its [data] has no [body].  The rule returns: it has
    validated the empty [data.get('body', {})], while validating
    [data[orig_method]['body']] raises. *)
Theorem body_ignores_orig_method :
  let w := sample_world [ONode sample_type_view] [] in
  __body (Ref 0) [] w = (Ok tt, w)
  /\ __body_media_type (VDict [(SStr "text/plain", VDict [])]) w
     = (Raise (unsupported "text/plain"), w)
  /\ (x <- lift (py_get (data sample_type_view) (SStr "get") (VDict [])) ;;
      lift (py_get x (SStr "body") (VDict []))) w
     = (Ok (VDict [(SStr "text/plain", VDict [])]), w).
Proof.
  intro w. repeat split; reflexivity.
Qed.

(** ** The Version rule *)

(** C7.  A document whose [baseUri] is a string containing "{version}" and
    which has no [version] key makes the rule raise the validator's error,
    for every production-mode flag: the first message when the flag is
    true, the second when it is false. *)
Theorem version_placeholder_without_version
    (w : world) (l : nat) (d : list (scalar * value)) (s : string)
    (prod : arg) (args : list arg) :
  heap w l = OValue (VDict d) ->
  dict_lookup d (SStr "baseUri") = Some (VStr s) ->
  contains "{version}" s = true ->
  dict_lookup d (SStr "version") = None ->
  __version (Ref l) (prod :: args) w =
    (Raise (InvalidRamlFileError
              (if arg_truthy w prod
               then "RAML File does not define an API version."
               else "RAML File's baseUri includes {version} parameter but no version is defined.")
              []), w).
Proof.
  intros Hl Hb Hs Hv.
  unfold __version, bind, lift, deref, arg_truthy. simpl.
  rewrite Hl. simpl. rewrite Hv. simpl.
  destruct (obj_truthy _); simpl.
  - reflexivity.
  - rewrite Hb. simpl. rewrite Hs. reflexivity.
Qed.

Lemma version_placeholder_without_version_witness :
  let d := [(SStr "baseUri", VStr "https://api.example.com/{version}")] in
  let w := sample_world [OValue (VDict d)] [] in
  (exists fmt, __version (Ref 0) [Imm (SBool true)] w
               = (Raise (InvalidRamlFileError fmt []), w))
  /\ (exists fmt, __version (Ref 0) [Imm (SBool false)] w
                  = (Raise (InvalidRamlFileError fmt []), w)).
Proof.
  intros d w. split.
  - eexists.
    apply (version_placeholder_without_version w 0 d
             "https://api.example.com/{version}" (Imm (SBool true)) []);
      reflexivity.
  - eexists.
    apply (version_placeholder_without_version w 0 d
             "https://api.example.com/{version}" (Imm (SBool false)) []);
      reflexivity.
Defined.

(** C10.  When [baseUri] is absent and the first test of the rule does not
    fire (the production-mode flag is false, or [version] holds a value the
    rule counts as present), the rule fails with [TypeError], the
    membership test being applied to [None], and not with the validator's
    error.  With a string for [baseUri] the rule returns or raises the
    validator's error, and nothing else. *)
Theorem version_without_base_uri
    (w : world) (l : nat) (d : list (scalar * value))
    (prod : arg) (args : list arg) :
  heap w l = OValue (VDict d) ->
  (dict_lookup d (SStr "baseUri") = None ->
   arg_truthy w prod = false
   \/ (exists v, dict_lookup d (SStr "version") = Some v /\ truthy v = true) ->
   __version (Ref l) (prod :: args) w = (Raise TypeError, w))
  /\ (forall s, dict_lookup d (SStr "baseUri") = Some (VStr s) ->
      __version (Ref l) (prod :: args) w = (Ok tt, w)
      \/ exists fmt, __version (Ref l) (prod :: args) w
                     = (Raise (InvalidRamlFileError fmt []), w)).
Proof.
  intro Hl. split.
  - intros Hb Hcase.
    unfold __version, bind, lift, deref, arg_truthy in *. simpl.
    rewrite Hl. simpl. rewrite Hb.
    destruct Hcase as [Hp | [v [Hv Ht]]].
    + rewrite Hp. reflexivity.
    + rewrite Hv, Ht, andb_false_r. reflexivity.
  - intros s Hb.
    unfold __version, bind, lift, deref. simpl.
    rewrite Hl. simpl. rewrite Hb.
    destruct (obj_truthy _ && _); simpl.
    + right. eexists. reflexivity.
    + destruct (contains "{version}" s && _); simpl.
      * right. eexists. reflexivity.
      * left. reflexivity.
Qed.

Lemma version_without_base_uri_witness :
  let w := sample_world [OValue (VDict [(SStr "version", VStr "v1")])] [] in
  __version (Ref 0) [Imm (SBool false)] w = (Raise TypeError, w)
  /\ __version (Ref 0) [Imm (SBool true)] w = (Raise TypeError, w).
Proof.
  intro w. split.
  - apply (proj1 (version_without_base_uri w 0 [(SStr "version", VStr "v1")]
                    (Imm (SBool false)) [] eq_refl)).
    + reflexivity.
    + left. reflexivity.
  - apply (proj1 (version_without_base_uri w 0 [(SStr "version", VStr "v1")]
                    (Imm (SBool true)) [] eq_refl)).
    + reflexivity.
    + right. exists (VStr "v1"). split; reflexivity.
Defined.

(** ** The Header rule *)

Lemma readline_line h rest :
  no_newline h = true ->
  readline (h ++ String newline rest) = (h ++ String newline "", rest).
Proof.
  induction h as [| c h IH]; simpl; intro H.
  - reflexivity.
  - apply andb_true_iff in H. destruct H as [Hc Hh].
    apply negb_true_iff in Hc. rewrite Hc, (IH Hh). reflexivity.
Qed.

Lemma readline_last_line h :
  no_newline h = true -> readline h = (h, "").
Proof.
  induction h as [| c h IH]; simpl; intro H.
  - reflexivity.
  - apply andb_true_iff in H. destruct H as [Hc Hh].
    apply negb_true_iff in Hc. rewrite Hc, (IH Hh). reflexivity.
Qed.

Lemma split_char_line h :
  no_newline h = true ->
  split_char newline (h ++ String newline "") = [h; ""].
Proof.
  induction h as [| c h IH]; simpl; intro H.
  - reflexivity.
  - apply andb_true_iff in H. destruct H as [Hc Hh].
    apply negb_true_iff in Hc. rewrite Hc, (IH Hh). reflexivity.
Qed.

Lemma split_char_last_line h :
  no_newline h = true -> split_char newline h = [h].
Proof.
  induction h as [| c h IH]; simpl; intro H.
  - reflexivity.
  - apply andb_true_iff in H. destruct H as [Hc Hh].
    apply negb_true_iff in Hc. rewrite Hc, (IH Hh). reflexivity.
Qed.

Lemma readlines_nil r : is_nil (readlines r) = (r =? "").
Proof.
  destruct r as [| c r]; simpl.
  - reflexivity.
  - destruct (c =? newline)%char; [reflexivity |].
    destruct r; [reflexivity |]. destruct (readlines _); reflexivity.
Qed.

Lemma stat_usable_path w p :
  usable_path p = true ->
  getsize (OValue (VStr p)) w
  = (match files w (ByPath p) with
     | Some text => Ok (String.length text)
     | None => Raise OSError
     end, w)
  /\ open (OValue (VStr p)) w
     = (match files w (ByPath p) with
        | Some text => Ok text
        | None => Raise OSError
        end, w).
Proof.
  unfold usable_path, getsize, open, fsname_of, lookup_file. intro H.
  apply andb_true_iff in H. destruct H as [He Hn].
  apply negb_true_iff in Hn. rewrite Hn.
  destruct p as [| c p]; [discriminate He |].
  destruct (files w (ByPath (String c p))); split; reflexivity.
Qed.

(** The rule on a file that is not empty, in terms of its first line and
    of what follows it. *)
Lemma raml_header_lines w path text line r h xs :
  usable_path path = true ->
  files w (ByPath path) = Some text ->
  text <> "" ->
  readline text = (line, r) ->
  split_char newline line = h :: xs ->
  __raml_header (Imm (SStr path)) [] w
  = (header_outcome (raml_versions (config w)) h r, w).
Proof.
  intros Hp Hf Hne Hrl Hsp.
  destruct (stat_usable_path w path Hp) as [Hsize Hopen].
  rewrite Hf in Hsize, Hopen.
  unfold __raml_header, header_outcome. unfold bind at 1 2 3 4.
  unfold no_more_args, ret at 1, deref. cbv beta iota.
  rewrite Hsize.
  assert (Hlen : (String.length text =? 0)%nat = false)
    by (destruct text; [contradiction | reflexivity]).
  rewrite Hlen, Hopen. cbv beta iota. rewrite Hrl. cbv beta iota.
  unfold bind, lift, config_get, try_except_ValueError.
  rewrite Hsp. simpl.
  destruct (h =? ""); simpl; [reflexivity |].
  destruct (split_ws h) as [| a [| b [| c' l']]]; simpl; try reflexivity.
  destruct (a =? "#%RAML"); simpl; [| reflexivity].
  destruct (scalar_in (SStr b) (raml_versions (config w))); simpl; [| reflexivity].
  unfold list_truthy. rewrite readlines_nil.
  destruct (r =? ""); reflexivity.
Qed.

Lemma append_nil_r (s : string) : s ++ "" = s.
Proof. induction s as [| c s IH]; simpl; [| rewrite IH]; reflexivity. Qed.

Lemma split_ws_nonempty h tok toks : split_ws h = tok :: toks -> (h =? "") = false.
Proof. destruct h; [discriminate | reflexivity]. Qed.

(** The first line and the remaining stream of a text given as a line
    [h], followed by nothing or by a newline and [rest]. *)
Lemma first_line_of h tail :
  no_newline h = true ->
  tail = "" \/ (exists rest, tail = String newline rest) ->
  exists line r xs,
    readline (h ++ tail) = (line, r)
    /\ split_char newline line = h :: xs
    /\ r = match tail with String _ rest => rest | "" => "" end.
Proof.
  intros Hh [-> | [rest ->]].
  - exists h, "", []. rewrite append_nil_r.
    rewrite (readline_last_line h Hh), (split_char_last_line h Hh). auto.
  - exists (h ++ String newline ""), rest, [""].
    rewrite (readline_line h rest Hh), (split_char_line h Hh). auto.
Qed.

(** C4, refuted as stated: a file that holds the header line and nothing
    else raises the version error, not "No RAML data to parse.", when the
    version of its header is not a configured one. *)
Lemma header_only_with_unsupported_version :
  let text := "#%RAML 1.0" ++ String newline "" in
  let w := with_versions [SStr "0.8"] (sample_world [] [("api.raml", text)]) in
  __raml_header (Imm (SStr "api.raml")) [] w
  = (Raise (InvalidRamlFileError "Not a valid version of RAML: {0}." [VStr "1.0"]), w).
Proof. reflexivity. Qed.

Lemma raml_header_empty_file w path :
  usable_path path = true ->
  files w (ByPath path) = Some "" ->
  __raml_header (Imm (SStr path)) [] w
  = (Raise (InvalidRamlFileError "RAML File is empty" []), w).
Proof.
  intros Hp Hf.
  destruct (stat_usable_path w path Hp) as [Hsize _]. rewrite Hf in Hsize.
  unfold __raml_header. unfold bind at 1 2 3. unfold no_more_args, ret, deref.
  cbv beta iota. rewrite Hsize. reflexivity.
Qed.

Lemma header_one_token w path text h tail tok :
  usable_path path = true ->
  files w (ByPath path) = Some text ->
  text = h ++ tail ->
  no_newline h = true ->
  tail = "" \/ (exists rest, tail = String newline rest) ->
  split_ws h = [tok] ->
  __raml_header (Imm (SStr path)) [] w
  = (Raise (InvalidRamlFileError "Not a valid RAML header: {0}." [VStr h]), w).
Proof.
  intros Hp Hf -> Hh Htail Htok.
  destruct (first_line_of h tail Hh Htail) as (line & r & xs & Hrl & Hsp & _).
  assert (Hne : h ++ tail <> "").
  { destruct h; [discriminate Htok | discriminate]. }
  rewrite (raml_header_lines w path _ line r h xs Hp Hf Hne Hrl Hsp).
  unfold header_outcome.
  rewrite (split_ws_nonempty h tok [] Htok), Htok. reflexivity.
Qed.

Lemma header_with_content w path text h version rest :
  usable_path path = true ->
  files w (ByPath path) = Some text ->
  text = h ++ String newline rest ->
  no_newline h = true ->
  split_ws h = ["#%RAML"; version] ->
  rest <> "" ->
  __raml_header (Imm (SStr path)) [] w
  = (if scalar_in (SStr version) (raml_versions (config w))
     then Ok tt
     else Raise (InvalidRamlFileError "Not a valid version of RAML: {0}."
                   [VStr version]), w).
Proof.
  intros Hp Hf -> Hh Htok Hrest.
  destruct (first_line_of h (String newline rest) Hh)
    as (line & r & xs & Hrl & Hsp & Hr).
  { right. eauto. }
  assert (Hne : h ++ String newline rest <> "").
  { destruct h; discriminate. }
  rewrite (raml_header_lines w path _ line r h xs Hp Hf Hne Hrl Hsp).
  unfold header_outcome. subst r.
  rewrite (split_ws_nonempty h _ _ Htok), Htok. simpl.
  destruct (scalar_in _ _); simpl; [| reflexivity].
  destruct rest; [contradiction | reflexivity].
Qed.

Lemma header_alone w path text h version :
  usable_path path = true ->
  files w (ByPath path) = Some text ->
  text = h \/ text = h ++ String newline "" ->
  no_newline h = true ->
  split_ws h = ["#%RAML"; version] ->
  __raml_header (Imm (SStr path)) [] w
  = (if scalar_in (SStr version) (raml_versions (config w))
     then Raise (InvalidRamlFileError "No RAML data to parse." [])
     else Raise (InvalidRamlFileError "Not a valid version of RAML: {0}."
                   [VStr version]), w).
Proof.
  intros Hp Hf Htext Hh Htok.
  assert (Hne : text <> "").
  { destruct Htext as [-> | ->]; destruct h; discriminate. }
  assert (Hl : exists line xs,
             readline text = (line, "") /\ split_char newline line = h :: xs).
  { destruct Htext as [-> | ->].
    - exists h, []. rewrite (readline_last_line h Hh),
        (split_char_last_line h Hh). auto.
    - exists (h ++ String newline ""), [""].
      rewrite (readline_line h "" Hh), (split_char_line h Hh). auto. }
  destruct Hl as (line & xs & Hrl & Hsp).
  rewrite (raml_header_lines w path text line "" h xs Hp Hf Hne Hrl Hsp).
  unfold header_outcome.
  rewrite (split_ws_nonempty h _ _ Htok), Htok. simpl.
  destruct (scalar_in (SStr version) (raml_versions (config w))); reflexivity.
Qed.

(** C4, amended.  The file is named by a path that is not empty and holds
    no NUL character.  An empty file raises "RAML File is empty".  A first
    line with one token, as "#%RAML", raises.  A file whose first line is
    "#%RAML 1.0", or any header [#%RAML <version>], followed by further
    content passes exactly when the version is in the configured list, and
    otherwise raises the version error.  A file that holds such a header
    line and nothing after it raises "No RAML data to parse." when the
    version is in the configured list, and the version error when it is
    not. *)
Theorem raml_header_cases (w : world) (path text : string) :
  usable_path path = true ->
  files w (ByPath path) = Some text ->
  (text = "" ->
   __raml_header (Imm (SStr path)) [] w
   = (Raise (InvalidRamlFileError "RAML File is empty" []), w))
  /\ (forall h tail tok,
         text = h ++ tail ->
         no_newline h = true ->
         tail = "" \/ (exists rest, tail = String newline rest) ->
         split_ws h = [tok] ->
         __raml_header (Imm (SStr path)) [] w
         = (Raise (InvalidRamlFileError "Not a valid RAML header: {0}." [VStr h]), w))
  /\ (forall h version rest,
         text = h ++ String newline rest ->
         no_newline h = true ->
         split_ws h = ["#%RAML"; version] ->
         rest <> "" ->
         __raml_header (Imm (SStr path)) [] w
         = (if scalar_in (SStr version) (raml_versions (config w))
            then Ok tt
            else Raise (InvalidRamlFileError "Not a valid version of RAML: {0}."
                          [VStr version]), w))
  /\ (forall h version,
         text = h \/ text = h ++ String newline "" ->
         no_newline h = true ->
         split_ws h = ["#%RAML"; version] ->
         __raml_header (Imm (SStr path)) [] w
         = (if scalar_in (SStr version) (raml_versions (config w))
            then Raise (InvalidRamlFileError "No RAML data to parse." [])
            else Raise (InvalidRamlFileError "Not a valid version of RAML: {0}."
                          [VStr version]), w))
  /\ (text = "#%RAML" \/ (exists rest, text = "#%RAML" ++ String newline rest) ->
      __raml_header (Imm (SStr path)) [] w
      = (Raise (InvalidRamlFileError "Not a valid RAML header: {0}."
                  [VStr "#%RAML"]), w))
  /\ (forall rest,
         text = "#%RAML 1.0" ++ String newline rest ->
         rest <> "" ->
         __raml_header (Imm (SStr path)) [] w
         = (if scalar_in (SStr "1.0") (raml_versions (config w))
            then Ok tt
            else Raise (InvalidRamlFileError "Not a valid version of RAML: {0}."
                          [VStr "1.0"]), w))
  /\ (text = "#%RAML 1.0" \/ text = "#%RAML 1.0" ++ String newline "" ->
      __raml_header (Imm (SStr path)) [] w
      = (if scalar_in (SStr "1.0") (raml_versions (config w))
         then Raise (InvalidRamlFileError "No RAML data to parse." [])
         else Raise (InvalidRamlFileError "Not a valid version of RAML: {0}."
                       [VStr "1.0"]), w)).
Proof.
  intros Hp Hf. repeat apply conj.
  - intros ->. exact (raml_header_empty_file w path Hp Hf).
  - intros h tail tok. apply (header_one_token w path text h tail tok Hp Hf).
  - intros h version rest.
    apply (header_with_content w path text h version rest Hp Hf).
  - intros h version. apply (header_alone w path text h version Hp Hf).
  - intros [Ht | [rest Ht]].
    + apply (header_one_token w path text "#%RAML" "" "#%RAML" Hp Hf);
        [exact Ht | reflexivity | left; reflexivity | reflexivity].
    + apply (header_one_token w path text "#%RAML" (String newline rest)
               "#%RAML" Hp Hf);
        [exact Ht | reflexivity | right; eauto | reflexivity].
  - intros rest Ht Hrest.
    apply (header_with_content w path text "#%RAML 1.0" "1.0" rest Hp Hf);
      [exact Ht | reflexivity | reflexivity | exact Hrest].
  - intro Ht.
    apply (header_alone w path text "#%RAML 1.0" "1.0" Hp Hf);
      [exact Ht | reflexivity | reflexivity].
Qed.

Lemma raml_header_cases_witness :
  let full := "#%RAML 1.0" ++ String newline ("title: X" ++ String newline "") in
  let bare := "#%RAML 1.0" ++ String newline "" in
  let one := "#%RAML" ++ String newline "" in
  let nbsp := "#%RAML" ++ String "160" "1.0" ++ String newline "title: X" in
  let w := sample_world [] [("full.raml", full); ("bare.raml", bare);
                            ("one.raml", one); ("empty.raml", "");
                            ("nbsp.raml", nbsp)] in
  __raml_header (Imm (SStr "empty.raml")) [] w
  = (Raise (InvalidRamlFileError "RAML File is empty" []), w)
  /\ __raml_header (Imm (SStr "one.raml")) [] w
     = (Raise (InvalidRamlFileError "Not a valid RAML header: {0}." [VStr "#%RAML"]), w)
  /\ __raml_header (Imm (SStr "full.raml")) [] w = (Ok tt, w)
  /\ __raml_header (Imm (SStr "bare.raml")) [] w
     = (Raise (InvalidRamlFileError "No RAML data to parse." []), w)
  /\ __raml_header (Imm (SStr "nbsp.raml")) [] w = (Ok tt, w).
Proof.
  intros full bare one nbsp w. split; [| split; [| split; [| split]]].
  - apply (proj1 (raml_header_cases w "empty.raml" "" eq_refl eq_refl)). reflexivity.
  - apply (proj1 (proj2 (raml_header_cases w "one.raml" one eq_refl eq_refl))
             "#%RAML" (String newline "") "#%RAML").
    + reflexivity.
    + reflexivity.
    + right. exists "". reflexivity.
    + reflexivity.
  - apply (proj1 (proj2 (proj2 (raml_header_cases w "full.raml" full eq_refl eq_refl)))
             "#%RAML 1.0" "1.0" ("title: X" ++ String newline "")).
    + reflexivity.
    + reflexivity.
    + reflexivity.
    + simpl. discriminate.
  - apply (proj1 (proj2 (proj2 (proj2
             (raml_header_cases w "bare.raml" bare eq_refl eq_refl))))
             "#%RAML 1.0" "1.0").
    + right. reflexivity.
    + reflexivity.
    + reflexivity.
  - apply (proj1 (proj2 (proj2 (raml_header_cases w "nbsp.raml" nbsp eq_refl eq_refl)))
             ("#%RAML" ++ String "160" "1.0") "1.0" "title: X").
    + reflexivity.
    + reflexivity.
    + reflexivity.
    + discriminate.
Defined.

(** ** The security-settings rule *)

Lemma for_each_required w fmt required attrs :
  for_each required (fun attr =>
    if negb (scalar_in (SStr attr) attrs) then invalid fmt [VStr attr]
    else ret tt) w
  = (require_all fmt required attrs, w).
Proof.
  unfold require_all, first_missing.
  induction required as [| a required IH]; simpl.
  - reflexivity.
  - unfold bind. destruct (scalar_in (SStr a) attrs); simpl.
    + exact IH.
    + reflexivity.
Qed.

Lemma first_missing_none required attrs :
  first_missing required attrs = None
  <-> (forall attr, In attr required -> scalar_in (SStr attr) attrs = true).
Proof.
  unfold first_missing. split.
  - intros H attr Hin.
    pose proof (find_none _ _ H attr Hin) as Hn.
    apply negb_false_iff in Hn. exact Hn.
  - intro H. induction required as [| a required IH]; simpl.
    + reflexivity.
    + rewrite (H a (or_introl eq_refl)). simpl.
      apply IH. intros attr Hin. apply H. right. exact Hin.
Qed.

Lemma security_settings_run w l n d s args :
  heap w l = ONode n ->
  data n = VDict d ->
  dict_lookup d (SStr "settings") = Some (VDict s) ->
  s <> [] ->
  __security_settings (Ref l) args w =
    ((if value_eq_scalar (type n) (SStr "OAuth 2.0") then
        for_each oauth2_attrs (fun attr =>
          if negb (scalar_in (SStr attr) (map fst s)) then
            invalid oauth2_fmt [VStr attr]
          else ret tt)
      else ret tt) ;;
     if value_eq_scalar (type n) (SStr "OAuth 1.0") then
       for_each oauth1_attrs (fun attr =>
         if negb (scalar_in (SStr attr) (map fst s)) then
           invalid oauth1_fmt [VStr attr]
         else ret tt)
     else ret tt) w.
Proof.
  intros Hl Hd Hs Hne.
  unfold __security_settings, bind, lift, deref, attr_data, attr_type.
  simpl. rewrite Hl, Hd. simpl. rewrite Hs. simpl.
  destruct s; [contradiction | reflexivity].
Qed.

Lemma require_all_ok fmt required attrs :
  require_all fmt required attrs = Ok tt
  <-> forall attr, In attr required -> scalar_in (SStr attr) attrs = true.
Proof.
  rewrite <- first_missing_none. unfold require_all.
  destruct (first_missing required attrs); split; congruence.
Qed.

(** C8.  A scheme without settings (none, or an empty value) passes.  With
    settings, a scheme of type "OAuth 2.0" passes exactly when the settings
    keys include [authorizationUri], [accessTokenUri],
    [authorizationGrants] and [scopes]; one of type "OAuth 1.0" exactly
    when they include [requestTokenUri], [authorizationUri] and
    [tokenCredentialsUri]; in both the error names the first of these keys,
    in this order, that is missing.  A scheme of any other type passes. *)
Theorem security_settings_required_keys
    (w : world) (l : nat) (n : node) (d : list (scalar * value))
    (args : list arg) :
  heap w l = ONode n ->
  data n = VDict d ->
  (dict_lookup d (SStr "settings") = None
   \/ (exists s, dict_lookup d (SStr "settings") = Some s /\ truthy s = false) ->
   __security_settings (Ref l) args w = (Ok tt, w))
  /\ (forall s,
         dict_lookup d (SStr "settings") = Some (VDict s) ->
         s <> [] ->
         (type n = VStr "OAuth 2.0" ->
          __security_settings (Ref l) args w
          = (require_all
               "Need to defined '{0}' in securitySchemas settings for a valid OAuth 2.0 scheme"
               ["authorizationUri"; "accessTokenUri"; "authorizationGrants";
                "scopes"]
               (map fst s), w)
          /\ (__security_settings (Ref l) args w = (Ok tt, w)
              <-> scalar_in (SStr "authorizationUri") (map fst s) = true
                  /\ scalar_in (SStr "accessTokenUri") (map fst s) = true
                  /\ scalar_in (SStr "authorizationGrants") (map fst s) = true
                  /\ scalar_in (SStr "scopes") (map fst s) = true))
         /\ (type n = VStr "OAuth 1.0" ->
             __security_settings (Ref l) args w
             = (require_all
                  "Need to defined '{0}' in securitySchemas settings for a valid OAuth 1.0 scheme"
                  ["requestTokenUri"; "authorizationUri"; "tokenCredentialsUri"]
                  (map fst s), w)
             /\ (__security_settings (Ref l) args w = (Ok tt, w)
                 <-> scalar_in (SStr "requestTokenUri") (map fst s) = true
                     /\ scalar_in (SStr "authorizationUri") (map fst s) = true
                     /\ scalar_in (SStr "tokenCredentialsUri") (map fst s) = true))
         /\ (value_eq_scalar (type n) (SStr "OAuth 2.0") = false ->
             value_eq_scalar (type n) (SStr "OAuth 1.0") = false ->
             __security_settings (Ref l) args w = (Ok tt, w)))
  /\ (forall fmt required attrs,
         (require_all fmt required attrs = Ok tt
          <-> forall attr, In attr required -> scalar_in (SStr attr) attrs = true)
         /\ (forall attr, first_missing required attrs = Some attr ->
             require_all fmt required attrs
             = Raise (InvalidRamlFileError fmt [VStr attr])
             /\ In attr required
             /\ scalar_in (SStr attr) attrs = false
             /\ exists before after,
                  required = (before ++ attr :: after)%list
                  /\ forall earlier, In earlier before ->
                       scalar_in (SStr earlier) attrs = true)).
Proof.
  intros Hl Hd. split; [| split].
  - intro Hs.
    unfold __security_settings, bind, lift, deref, attr_data. simpl.
    rewrite Hl, Hd. simpl.
    destruct Hs as [Hs | [s [Hs Ht]]]; rewrite Hs; simpl.
    + reflexivity.
    + rewrite Ht. reflexivity.
  - intros s Hs Hne.
    pose proof (security_settings_run w l n d s args Hl Hd Hs Hne) as Hrun.
    split; [| split].
    + intro Ht.
      assert (H2 : __security_settings (Ref l) args w
                   = (require_all oauth2_fmt oauth2_attrs (map fst s), w)).
      { rewrite Hrun, Ht. unfold bind.
        replace (value_eq_scalar (VStr "OAuth 2.0") (SStr "OAuth 2.0"))
          with true by reflexivity.
        replace (value_eq_scalar (VStr "OAuth 2.0") (SStr "OAuth 1.0"))
          with false by reflexivity.
        rewrite for_each_required.
        destruct (require_all oauth2_fmt oauth2_attrs (map fst s)) as [[] | e];
          reflexivity. }
      split; [exact H2 |].
      rewrite H2. split.
      * intro H. injection H as H. rewrite require_all_ok in H.
        repeat split; apply H; simpl; auto.
      * intros (Ha & Hb & Hc & Hd'). f_equal. apply require_all_ok.
        intros attr [<- | [<- | [<- | [<- | []]]]]; assumption.
    + intro Ht.
      assert (H1 : __security_settings (Ref l) args w
                   = (require_all oauth1_fmt oauth1_attrs (map fst s), w)).
      { rewrite Hrun, Ht. unfold bind.
        replace (value_eq_scalar (VStr "OAuth 1.0") (SStr "OAuth 1.0"))
          with true by reflexivity.
        replace (value_eq_scalar (VStr "OAuth 1.0") (SStr "OAuth 2.0"))
          with false by reflexivity.
        cbv beta iota. unfold ret at 1. cbv beta iota.
        apply for_each_required. }
      split; [exact H1 |].
      rewrite H1. split.
      * intro H. injection H as H. rewrite require_all_ok in H.
        repeat split; apply H; simpl; auto.
      * intros (Ha & Hb & Hc). f_equal. apply require_all_ok.
        intros attr [<- | [<- | [<- | []]]]; assumption.
    + intros H2 H1. rewrite Hrun, H2, H1. reflexivity.
  - intros fmt required attrs. split.
    + apply require_all_ok.
    + intros attr Hm. unfold require_all. rewrite Hm.
      unfold first_missing in Hm.
      split; [reflexivity |].
      pose proof (find_some _ _ Hm) as [Hin Hn].
      apply negb_true_iff in Hn. split; [exact Hin | split; [exact Hn |]].
      clear Hin Hn. induction required as [| a required IH];
        [discriminate Hm |].
      simpl in Hm. destruct (scalar_in (SStr a) attrs) eqn:Ea; simpl in Hm.
      * destruct (IH Hm) as (before & after & -> & Hbefore).
        exists (a :: before), after. split; [reflexivity |].
        intros earlier [<- | Hin]; [exact Ea | exact (Hbefore _ Hin)].
      * injection Hm as ->. exists [], required. split; [reflexivity |].
        intros earlier [].
Qed.

Lemma security_settings_required_keys_witness :
  let settings2 := [(SStr "authorizationUri", VStr "https://a/authorize");
                    (SStr "accessTokenUri", VStr "https://a/token");
                    (SStr "scopes", VList [])] in
  let settings1 := [(SStr "requestTokenUri", VStr "https://a/request");
                    (SStr "authorizationUri", VStr "https://a/authorize")] in
  let n2 := mkNode (SStr "oauth_2_0") None None
                   (VDict [(SStr "settings", VDict settings2)]) (VStr "OAuth 2.0") in
  let n1 := mkNode (SStr "oauth_1_0") None None
                   (VDict [(SStr "settings", VDict settings1)]) (VStr "OAuth 1.0") in
  let w := sample_world [ONode n2; ONode n1] [] in
  __security_settings (Ref 0) [] w
  = (Raise (InvalidRamlFileError
              "Need to defined '{0}' in securitySchemas settings for a valid OAuth 2.0 scheme"
              [VStr "authorizationGrants"]), w)
  /\ __security_settings (Ref 1) [] w
     = (Raise (InvalidRamlFileError
                 "Need to defined '{0}' in securitySchemas settings for a valid OAuth 1.0 scheme"
                 [VStr "tokenCredentialsUri"]), w).
Proof.
  intros settings2 settings1 n2 n1 w. split.
  - destruct (security_settings_required_keys w 0 n2
                [(SStr "settings", VDict settings2)] [] eq_refl eq_refl)
      as [_ [H _]].
    destruct (H settings2) as [H2 _].
    + reflexivity.
    + discriminate.
    + rewrite (proj1 (H2 eq_refl)). reflexivity.
  - destruct (security_settings_required_keys w 1 n1
                [(SStr "settings", VDict settings1)] [] eq_refl eq_refl)
      as [_ [H _]].
    destruct (H settings1) as [_ [H1 _]].
    + reflexivity.
    + discriminate.
    + rewrite (proj1 (H1 eq_refl)). reflexivity.
Defined.

(** ** Resource-type assignment *)

Lemma value_in_scalar k l : value_in (VScalar k) l = scalar_in k l.
Proof. reflexivity. Qed.

Lemma check_assigned_single w resource k v lr rt args :
  heap w lr = ORoot rt ->
  check_assigned resource (VDict [(k, v)]) (Ref lr :: args) w =
    (match resource_types rt with
     | Some declared =>
         if scalar_in k (map name declared) then Ok tt
         else Raise (InvalidRamlFileError "'{0}' is not defined in resourceTypes"
                       [VScalar k])
     | None => Raise TypeError
     end, w).
Proof.
  intro Hr.
  unfold check_assigned, bind, lift, deref, attr_resource_types, names_of.
  simpl. rewrite Hr.
  destruct (resource_types rt) as [declared |]; simpl; [| reflexivity].
  rewrite value_in_scalar.
  destruct (scalar_in k (map name declared)); reflexivity.
Qed.

Lemma check_assigned_too_many w n l assigned args :
  heap w l = ONode n ->
  too_many assigned = true ->
  check_assigned (ONode n) assigned args w =
    (Raise (InvalidRamlFileError "Too many resource types applied to '{0}'."
              [VScalar (name n)]), w).
Proof.
  intros _ Hm.
  unfold check_assigned, bind, lift. 
  destruct assigned as [c | xs | d]; simpl in Hm; [discriminate | |];
    simpl; rewrite Hm; reflexivity.
Qed.

Lemma scalar_in_names k (declared : list node) :
  scalar_in k (map name declared) = true
  <-> exists r, In r declared /\ scalar_eqb k (name r) = true.
Proof.
  unfold scalar_in. rewrite existsb_exists. split.
  - intros [c [Hin Hc]]. apply in_map_iff in Hin.
    destruct Hin as [r [<- Hr]]. eauto.
  - intros [r [Hr Hc]]. exists (name r). split; [apply in_map; exact Hr | exact Hc].
Qed.

(** C5.  A [type] given as a mapping with the single key [k] passes, in
    [__set_type] and in [__resource_type] alike, exactly when the root
    declares a resource type whose name equals [k]; with a declared list
    that lacks it the rule raises "is not defined in resourceTypes".  A
    [type] given as a sequence or mapping with two entries or more raises
    "Too many resource types applied", whatever the configuration, the
    root and the further arguments are. *)
Theorem resource_type_assignment
    (w : world) (l lr : nat) (n : node) (rt : root) :
  heap w l = ONode n ->
  heap w lr = ORoot rt ->
  (forall d k v args,
      data n = VDict d ->
      dict_lookup d (SStr "type") = Some (VDict [(k, v)]) ->
      (__set_type (Ref l) (Ref lr :: args) w = (Ok tt, w)
       <-> exists r, In r (declared_resource_types rt)
                     /\ scalar_eqb k (name r) = true)
      /\ (forall declared,
             resource_types rt = Some declared ->
             scalar_in k (map name declared) = false ->
             __set_type (Ref l) (Ref lr :: args) w
             = (Raise (InvalidRamlFileError "'{0}' is not defined in resourceTypes"
                         [VScalar k]), w)))
  /\ (forall k v args,
         type n = VDict [(k, v)] ->
         (__resource_type (Ref l) (Ref lr :: args) w = (Ok tt, w)
          <-> exists r, In r (declared_resource_types rt)
                        /\ scalar_eqb k (name r) = true)
         /\ (forall declared,
                resource_types rt = Some declared ->
                scalar_in k (map name declared) = false ->
                __resource_type (Ref l) (Ref lr :: args) w
                = (Raise (InvalidRamlFileError "'{0}' is not defined in resourceTypes"
                            [VScalar k]), w)))
  /\ (forall d assigned args,
         data n = VDict d ->
         dict_lookup d (SStr "type") = Some assigned ->
         too_many assigned = true ->
         __set_type (Ref l) args w
         = (Raise (InvalidRamlFileError "Too many resource types applied to '{0}'."
                     [VScalar (name n)]), w))
  /\ (forall args,
         too_many (type n) = true ->
         __resource_type (Ref l) args w
         = (Raise (InvalidRamlFileError "Too many resource types applied to '{0}'."
                     [VScalar (name n)]), w)).
Proof.
  intros Hl Hr.
  assert (Hsingle : forall k v args run,
            run = check_assigned (ONode n) (VDict [(k, v)]) (Ref lr :: args) w ->
            (run = (Ok tt, w)
             <-> exists r, In r (declared_resource_types rt)
                           /\ scalar_eqb k (name r) = true)
            /\ (forall declared,
                   resource_types rt = Some declared ->
                   scalar_in k (map name declared) = false ->
                   run = (Raise (InvalidRamlFileError
                                   "'{0}' is not defined in resourceTypes"
                                   [VScalar k]), w))).
  { intros k v args run ->. rewrite (check_assigned_single w _ k v lr rt args Hr).
    split.
    - unfold declared_resource_types.
      destruct (resource_types rt) as [declared |].
      + rewrite <- scalar_in_names.
        destruct (scalar_in k (map name declared)); split; congruence.
      + split; [discriminate | intros [r [[] _]]].
    - intros declared -> ->. reflexivity. }
  assert (Htruthy : forall v, too_many v = true -> truthy v = true).
  { intros [c | [| x xs] | [| x xs]] H; first [discriminate H | reflexivity]. }
  split; [| split; [| split]].
  - intros d k v args Hd Ht. apply (Hsingle k v args).
    unfold __set_type, bind, lift, deref, attr_data. simpl.
    rewrite Hl. simpl. rewrite Hd. simpl. rewrite Ht. reflexivity.
  - intros k v args Ht. apply (Hsingle k v args).
    unfold __resource_type, bind, lift, deref, attr_type. simpl.
    rewrite Hl. simpl. rewrite Ht. reflexivity.
  - intros d assigned args Hd Ht Hm.
    unfold __set_type, bind, lift, deref, attr_data. simpl.
    rewrite Hl. simpl. rewrite Hd. simpl. rewrite Ht, (Htruthy _ Hm). simpl.
    apply (check_assigned_too_many w n l assigned args Hl Hm).
  - intros args Hm.
    unfold __resource_type, bind, lift, deref, attr_type. simpl.
    rewrite Hl. simpl. rewrite (Htruthy _ Hm). simpl.
    apply (check_assigned_too_many w n l (type n) args Hl Hm).
Qed.

Lemma resource_type_assignment_witness :
  let collection := mkNode (SStr "Collection") None None (VDict []) VNone in
  let n := mkNode (SStr "/users") (Some (SStr "get")) None
                  (VDict [(SStr "type", VDict [(SStr "Collection", VDict [])])])
                  (VList [VStr "Collection"; VStr "Member"]) in
  let w := sample_world [ONode n; ORoot (mkRoot (Some [collection]) None)] [] in
  __set_type (Ref 0) [Ref 1] w = (Ok tt, w)
  /\ __resource_type (Ref 0) [Ref 1] w
     = (Raise (InvalidRamlFileError "Too many resource types applied to '{0}'."
                 [VStr "/users"]), w).
Proof.
  intros collection n w.
  destruct (resource_type_assignment w 0 1 n (mkRoot (Some [collection]) None)
              eq_refl eq_refl) as [Hset [_ [_ Hmany]]].
  split.
  - destruct (Hset [(SStr "type", VDict [(SStr "Collection", VDict [])])]
                   (SStr "Collection") (VDict []) [] eq_refl eq_refl)
      as [[_ Hpass] _].
    apply Hpass. exists collection. split; [left |]; reflexivity.
  - apply (Hmany [Ref 1]). reflexivity.
Defined.

(** ** The primitive-parameter-type check *)



Lemma dict_of_items_from_head (k0 : scalar) (v0 : value)
    (rest acc : list (scalar * value)) :
  forallb (fun kv => negb (scalar_eqb k0 (fst kv))) rest = true ->
  fold_left (fun d kv => dict_set d (fst kv) (snd kv)) rest ((k0, v0) :: acc)
  = (k0, v0) :: fold_left (fun d kv => dict_set d (fst kv) (snd kv)) rest acc.
Proof.
  revert acc. induction rest as [| [k v] rest IH]; simpl; intros acc H.
  - reflexivity.
  - apply andb_true_iff in H. destruct H as [Hk Hrest].
    apply negb_true_iff in Hk. rewrite Hk. apply IH. exact Hrest.
Qed.

(** The Query Parameters rule on an object with neither [method] nor
    [orig_method]: the parameters declared under [data] are checked through
    their first entry alone. *)
Lemma query_params_check_first_entry w l n d k0 e0 rest args :
  heap w l = ONode n ->
  method n = None ->
  orig_method n = None ->
  data n = VDict d ->
  dict_lookup d (SStr "queryParameters") = Some (VDict ((k0, VDict e0) :: rest)) ->
  forallb (fun kv => negb (scalar_eqb k0 (fst kv))) rest = true ->
  __query_params (Ref l) args w
  = __primative_parameter (VDict [(k0, VDict e0)]) w.
Proof.
  intros Hl Hm Hom Hd Hq Hrest.
  unfold __query_params, params_rule, bind, lift, deref, attr_data,
    hasattr_orig_method, hasattr_method. simpl.
  rewrite Hl. simpl. rewrite Hd, Hom, Hm. simpl. rewrite Hq. simpl.
  unfold dict_of_items. simpl.
  rewrite (dict_of_items_from_head k0 (VDict e0) rest [] Hrest).
  reflexivity.
Qed.
(** * Further properties of the validator *)

(** ** The decorators *)

Lemma enabled_value w :
  enabled w = (Ok (env_flag w || (main_validate (config w) =? "True")), w).
Proof.
  unfold enabled, env_flag, bind, os_environ_get, config_get, ret.
  destruct (environ w "RAML_VALIDATE") as [s |]; simpl.
  - destruct (s =? "1"); reflexivity.
  - reflexivity.
Qed.

(** X1.  Validation is on when the environment flag is "1" or the
    persistent value is "True", and in either case a wrapped operation
    whose name (or property) is registered runs the rule first: the rule's
    error comes out and the operation is not run, and when the rule returns
    the result is that of the operation alone. *)
Theorem gate_enabled_by_either_switch {R} (func : pyfunc R) (obj : arg)
    (args : list arg) (w : world) :
  environ w "RAML_VALIDATE" = Some "1" \/ main_validate (config w) = "True" ->
  (forall check,
      assoc (__name__ func) validate_func_table = Some check ->
      call (validate func) obj args w =
        match check obj args w with
        | (Ok _, _) => call func obj args w
        | (Raise e, _) => (Raise e, w)
        end)
  /\ (forall p check,
         assoc p validate_prop_table = Some check ->
         call (validate_property func) obj (Imm (SStr p) :: args) w =
           match check obj args w with
           | (Ok _, _) => call func obj (Imm (SStr p) :: args) w
           | (Raise e, _) => (Raise e, w)
           end).
Proof.
  intro Hon.
  assert (Hen : enabled w = (Ok true, w)).
  { rewrite enabled_value. unfold env_flag.
    destruct Hon as [-> | ->]; [reflexivity |].
    rewrite orb_true_r. reflexivity. }
  split.
  - intros check Hcheck.
    pose proof (registered_func_read_only _ _ Hcheck obj args w) as Hro.
    simpl. unfold bind at 1. rewrite Hen.
    unfold bind, __map_to_validate_func, subscript. rewrite Hcheck.
    simpl. destruct (check obj args w) as [[[] | e] w']; simpl in Hro;
      subst w'; reflexivity.
  - intros p check Hcheck.
    pose proof (registered_prop_read_only _ _ Hcheck obj args w) as Hro.
    simpl. unfold bind at 1. rewrite Hen.
    unfold bind, deref, __map_to_validate_prop, subscript. rewrite Hcheck.
    simpl. destruct (check obj args w) as [[[] | e] w']; simpl in Hro;
      subst w'; reflexivity.
Qed.

Lemma gate_enabled_by_either_switch_witness :
  let w := mkWorld (fun _ => OValue (VDict [(SStr "baseUri", VStr "https://a")]))
                   (fun _ => None)
                   (mkCfg "True" [] [] [] [] [] [])
                   (fun _ => None) in
  call (validate sample_set_base_uri) (Ref 0) [] w = (Ok (VStr "https://a"), w).
Proof.
  intro w.
  destruct (gate_enabled_by_either_switch sample_set_base_uri (Ref 0) [] w)
    as [H _].
  - right. reflexivity.
  - rewrite (H __base_uri); reflexivity.
Defined.

(** X2.  With validation on, an operation whose name is in no registry
    entry fails with [KeyError] before it runs, and so does a property that
    is not registered; a sequence or mapping given as the property is
    unhashable.  A property-level operation called without a property is a
    [TypeError] whether validation is on or off. *)
Theorem gate_lookup_miss {R} (func : pyfunc R) (obj : arg)
    (args : list arg) (w : world) :
  (environ w "RAML_VALIDATE" = Some "1" \/ main_validate (config w) = "True" ->
   (assoc (__name__ func) validate_func_table = None ->
    call (validate func) obj args w = (Raise KeyError, w))
   /\ (forall p,
          assoc p validate_prop_table = None ->
          call (validate_property func) obj (Imm (SStr p) :: args) w
          = (Raise KeyError, w))
   /\ (forall l v,
          heap w l = OValue v ->
          isinstance_dict v || isinstance_list v = true ->
          call (validate_property func) obj (Ref l :: args) w
          = (Raise TypeError, w)))
  /\ call (validate_property func) obj [] w = (Raise TypeError, w).
Proof.
  split; [| reflexivity].
  intro Hon.
  assert (Hen : enabled w = (Ok true, w)).
  { rewrite enabled_value. unfold env_flag.
    destruct Hon as [-> | ->]; [reflexivity |].
    rewrite orb_true_r. reflexivity. }
  split; [| split].
  - intro Hnone. simpl. unfold bind at 1. rewrite Hen.
    unfold bind, __map_to_validate_func, subscript. rewrite Hnone. reflexivity.
  - intros p Hnone. simpl. unfold bind at 1. rewrite Hen.
    unfold bind, deref, __map_to_validate_prop, subscript. rewrite Hnone.
    reflexivity.
  - intros l v Hl Hv. simpl. unfold bind at 1. rewrite Hen.
    unfold bind, deref, __map_to_validate_prop, subscript. rewrite Hl.
    destruct v as [c | xs | d]; [discriminate Hv | reflexivity | reflexivity].
Qed.

Lemma gate_lookup_miss_witness :
  let w := with_flag (sample_world [ONode sample_trait; OValue (VList [])] []) in
  call (validate sample_set_property) (Ref 0) [] w = (Raise KeyError, w)
  /\ call (validate_property sample_set_property) (Ref 0) [Imm (SStr "traits")] w
     = (Raise KeyError, w)
  /\ call (validate_property sample_set_property) (Ref 0) [Ref 1] w
     = (Raise TypeError, w).
Proof.
  intro w.
  destruct (gate_lookup_miss sample_set_property (Ref 0) [] w) as [H _].
  destruct H as (Hf & Hp & Hu).
  - left. reflexivity.
  - split; [| split].
    + apply Hf. reflexivity.
    + apply Hp. reflexivity.
    + apply (Hu 1 (VList [])); reflexivity.
Defined.

(** X3.  For the properties [headers], [description] and
    [baseUriParameters] the wrapped operation is the operation itself in
    every state, validation on or off: their rules accept everything. *)
Theorem placeholder_properties_never_reject {R} (func : pyfunc R)
    (obj : arg) (args : list arg) (w : world) (p : string) :
  p = "headers" \/ p = "description" \/ p = "baseUriParameters" ->
  call (validate_property func) obj (Imm (SStr p) :: args) w
  = call func obj (Imm (SStr p) :: args) w.
Proof.
  intro Hp. simpl. unfold bind at 1. rewrite enabled_value.
  destruct (env_flag w || (main_validate (config w) =? "True"));
    [| reflexivity].
  destruct Hp as [-> | [-> | ->]]; reflexivity.
Qed.

Lemma placeholder_properties_never_reject_witness :
  let w := with_flag (sample_world [ONode sample_trait] []) in
  call (validate_property sample_set_property) (Ref 0) [Imm (SStr "headers")] w
  = (Ok (data sample_trait), w).
Proof.
  intro w.
  rewrite (placeholder_properties_never_reject sample_set_property (Ref 0) [] w
             "headers").
  - reflexivity.
  - left. reflexivity.
Defined.

(** ** Root-level rules *)

(** A loop whose body, on every element, either raises an error that
    depends on the element or returns, stops at the first element that
    raises. *)
Lemma for_each_find {A} (xs : list A) (body : A -> M unit)
    (bad : A -> bool) (err : A -> exn) (w : world) :
  (forall x, In x xs ->
     body x w = (if bad x then Raise (err x) else Ok tt, w)) ->
  for_each xs body w
  = (match find bad xs with
     | Some x => Raise (err x)
     | None => Ok tt
     end, w).
Proof.
  induction xs as [| x xs IH]; simpl; intro H.
  - reflexivity.
  - unfold bind. rewrite (H x (or_introl eq_refl)).
    destruct (bad x).
    + reflexivity.
    + apply IH. intros y Hy. apply H. right. exact Hy.
Qed.

(** X4.  On a document that is a mapping, the Base URI rule and the Title
    rule raise exactly when the value under their key is missing or empty
    ([None], [False], [0], an empty string, sequence or mapping); called
    with a further positional argument they fail with [TypeError] whatever
    the document holds. *)
Theorem required_root_keys
    (w : world) (l : nat) (d : list (scalar * value)) :
  heap w l = OValue (VDict d) ->
  __base_uri (Ref l) [] w
  = (if truthy (field (VDict d) "baseUri") then Ok tt
     else Raise (InvalidRamlFileError "RAML File does not define the baseUri." []),
     w)
  /\ __api_title (Ref l) [] w
     = (if truthy (field (VDict d) "title") then Ok tt
        else Raise (InvalidRamlFileError "RAML File does not define an API title." []),
        w)
  /\ (forall a args,
         __base_uri (Ref l) (a :: args) w = (Raise TypeError, w)
         /\ __api_title (Ref l) (a :: args) w = (Raise TypeError, w)).
Proof.
  intro Hl. split; [| split].
  - unfold __base_uri, bind, lift, deref. simpl. rewrite Hl. simpl.
    destruct (dict_lookup d (SStr "baseUri")) as [x |]; simpl;
      [destruct (truthy x) |]; reflexivity.
  - unfold __api_title, bind, lift, deref. simpl. rewrite Hl. simpl.
    destruct (dict_lookup d (SStr "title")) as [x |]; simpl;
      [destruct (truthy x) |]; reflexivity.
  - intros a args. split; reflexivity.
Qed.

Lemma required_root_keys_witness :
  let w := sample_world [OValue (VDict [(SStr "title", VStr "")])] [] in
  __base_uri (Ref 0) [] w
  = (Raise (InvalidRamlFileError "RAML File does not define the baseUri." []), w)
  /\ __api_title (Ref 0) [] w
     = (Raise (InvalidRamlFileError "RAML File does not define an API title." []), w).
Proof.
  intro w.
  destruct (required_root_keys w 0 [(SStr "title", VStr "")] eq_refl)
    as (Hb & Ht & _).
  split; [rewrite Hb | rewrite Ht]; reflexivity.
Defined.

(** X5.  With [documentation] a sequence of mappings, the Documentation
    rule passes exactly when every entry has a non-empty [title] and a
    non-empty [content]; otherwise the first incomplete entry decides the
    error, its missing title being reported before its missing content. *)
Theorem documentation_entries
    (w : world) (l : nat) (d : list (scalar * value)) (docs : list value) :
  heap w l = OValue (VDict d) ->
  dict_lookup d (SStr "documentation") = Some (VList docs) ->
  forallb isinstance_dict docs = true ->
  __documentation (Ref l) [] w
  = (match find (fun e => negb (doc_complete e)) docs with
     | None => Ok tt
     | Some e =>
         Raise (InvalidRamlFileError
                  (if truthy (field e "title")
                   then "API Documentation requires content defined."
                   else "API Documentation requires a title.") [])
     end, w)
  /\ (__documentation (Ref l) [] w = (Ok tt, w)
      <-> forall e, In e docs -> doc_complete e = true).
Proof.
  intros Hl Hd Hdocs.
  assert (Hrun : __documentation (Ref l) [] w
                 = (match find (fun e => negb (doc_complete e)) docs with
                    | None => Ok tt
                    | Some e =>
                        Raise (InvalidRamlFileError
                                 (if truthy (field e "title")
                                  then "API Documentation requires content defined."
                                  else "API Documentation requires a title.") [])
                    end, w)).
  { unfold __documentation, bind at 1 2 3, lift, deref. simpl.
    rewrite Hl. simpl. rewrite Hd. simpl.
    destruct docs as [| e0 docs']; [reflexivity |].
    change (negb (is_nil (e0 :: docs'))) with true. cbv iota.
    unfold bind at 1. simpl py_iter. cbv iota.
    apply (for_each_find (e0 :: docs') _ (fun e => negb (doc_complete e))
             (fun e => InvalidRamlFileError
                         (if truthy (field e "title")
                          then "API Documentation requires content defined."
                          else "API Documentation requires a title.") [])).
    intros e He.
    rewrite forallb_forall in Hdocs. specialize (Hdocs e He).
    destruct e as [c | xs | fields]; try discriminate Hdocs.
    unfold bind, lift, doc_complete, field, py_get. 
    destruct (truthy match dict_lookup fields (SStr "title") with
                     | Some x => x | None => VNone end); simpl; [| reflexivity].
    destruct (truthy match dict_lookup fields (SStr "content") with
                     | Some x => x | None => VNone end); reflexivity. }
  split; [exact Hrun |].
  rewrite Hrun. split.
  - intros H e He.
    destruct (find (fun e => negb (doc_complete e)) docs) eqn:E; [discriminate H |].
    pose proof (find_none _ _ E e He) as Hn. apply negb_false_iff in Hn. exact Hn.
  - intro H.
    destruct (find (fun e => negb (doc_complete e)) docs) as [e |] eqn:E;
      [| reflexivity].
    apply find_some in E. destruct E as [He Hn].
    rewrite (H e He) in Hn. discriminate Hn.
Qed.

Lemma documentation_entries_witness :
  let docs := [VDict [(SStr "title", VStr "Intro"); (SStr "content", VStr "Hello")];
               VDict [(SStr "content", VStr "No title")]] in
  let w := sample_world [OValue (VDict [(SStr "documentation", VList docs)])] [] in
  __documentation (Ref 0) [] w
  = (Raise (InvalidRamlFileError "API Documentation requires a title." []), w).
Proof.
  intros docs w.
  rewrite (proj1 (documentation_entries w 0
                    [(SStr "documentation", VList docs)] docs
                    eq_refl eq_refl eq_refl)).
  reflexivity.
Defined.

(** X6.  With [baseUriParameters] a mapping whose values are mappings, the
    Base URI Parameters rule passes exactly when every parameter has a
    [default] key; otherwise it names the first parameter without one.  A
    document without [baseUriParameters] passes. *)
Theorem base_uri_params_need_default
    (w : world) (l : nat) (d : list (scalar * value)) (args : list arg) :
  heap w l = OValue (VDict d) ->
  (dict_lookup d (SStr "baseUriParameters") = None ->
   __base_uri_params (Ref l) args w = (Ok tt, w))
  /\ (forall params,
         dict_lookup d (SStr "baseUriParameters") = Some (VDict params) ->
         forallb (fun kv => isinstance_dict (snd kv)) params = true ->
         __base_uri_params (Ref l) args w
         = (match find (fun kv => negb (has_key (snd kv) "default")) params with
            | None => Ok tt
            | Some kv =>
                Raise (InvalidRamlFileError
                         "The 'default' parameter is not set for base URI parameter '{0}'"
                         [VScalar (fst kv)])
            end, w)
         /\ (__base_uri_params (Ref l) args w = (Ok tt, w)
             <-> forall k v, In (k, v) params -> has_key v "default" = true)).
Proof.
  intro Hl. split.
  - intro Hd. unfold __base_uri_params, bind, lift, deref. simpl.
    rewrite Hl. simpl. rewrite Hd. reflexivity.
  - intros params Hd Hp.
    assert (Hrun : __base_uri_params (Ref l) args w
              = (match find (fun kv => negb (has_key (snd kv) "default")) params with
                 | None => Ok tt
                 | Some kv =>
                     Raise (InvalidRamlFileError
                              "The 'default' parameter is not set for base URI parameter '{0}'"
                              [VScalar (fst kv)])
                 end, w)).
    { unfold __base_uri_params, bind at 1 2 3, lift, deref. simpl.
      rewrite Hl. simpl. rewrite Hd. simpl.
      apply (for_each_find params _
               (fun kv => negb (has_key (snd kv) "default"))
               (fun kv => InvalidRamlFileError
                            "The 'default' parameter is not set for base URI parameter '{0}'"
                            [VScalar (fst kv)])).
      intros [k v] Hin.
      rewrite forallb_forall in Hp. specialize (Hp (k, v) Hin). simpl in Hp.
      destruct v as [c | xs | e]; try discriminate Hp.
      unfold bind, lift, has_key. simpl.
      destruct (scalar_in (SStr "default") (map fst e)); reflexivity. }
    split; [exact Hrun |].
    rewrite Hrun. split.
    + intros H k v Hin.
      destruct (find _ params) eqn:E; [discriminate H |].
      pose proof (find_none _ _ E (k, v) Hin) as Hn.
      apply negb_false_iff in Hn. exact Hn.
    + intro H.
      destruct (find _ params) as [[k v] |] eqn:E; [| reflexivity].
      apply find_some in E. destruct E as [Hin Hn].
      simpl in Hn. rewrite (H k v Hin) in Hn. discriminate Hn.
Qed.

Lemma base_uri_params_need_default_witness :
  let params := [(SStr "region", VDict [(SStr "default", VStr "eu")]);
                 (SStr "tenant", VDict [(SStr "type", VStr "string")])] in
  let w := sample_world [OValue (VDict [(SStr "baseUriParameters", VDict params)])] [] in
  __base_uri_params (Ref 0) [] w
  = (Raise (InvalidRamlFileError
              "The 'default' parameter is not set for base URI parameter '{0}'"
              [VStr "tenant"]), w).
Proof.
  intros params w.
  destruct (base_uri_params_need_default w 0
              [(SStr "baseUriParameters", VDict params)] [] eq_refl) as [_ H].
  rewrite (proj1 (H params eq_refl eq_refl)). reflexivity.
Defined.

(** X7.  With [protocols] a sequence, the Protocols rule passes exactly
    when every member is in the configured protocol list, and otherwise
    names the first member that is not.  A missing or empty [protocols]
    passes. *)
Theorem protocols_all_configured
    (w : world) (l : nat) (d : list (scalar * value)) (args : list arg) :
  heap w l = OValue (VDict d) ->
  (truthy (field (VDict d) "protocols") = false ->
   __protocols (Ref l) args w = (Ok tt, w))
  /\ (forall ps,
         dict_lookup d (SStr "protocols") = Some (VList ps) ->
         __protocols (Ref l) args w
         = (match find (fun p => negb (value_in p (protocols (config w)))) ps with
            | None => Ok tt
            | Some p =>
                Raise (InvalidRamlFileError
                         "'{0}' not a valid protocol for a RAML-defined API." [p])
            end, w)
         /\ (__protocols (Ref l) args w = (Ok tt, w)
             <-> forall p, In p ps -> value_in p (protocols (config w)) = true)).
Proof.
  intro Hl. split.
  - intro Hf. unfold __protocols, bind, lift, deref. simpl.
    rewrite Hl. simpl. unfold field in Hf. rewrite Hf. reflexivity.
  - intros ps Hd.
    assert (Hrun : __protocols (Ref l) args w
              = (match find (fun p => negb (value_in p (protocols (config w)))) ps with
                 | None => Ok tt
                 | Some p =>
                     Raise (InvalidRamlFileError
                              "'{0}' not a valid protocol for a RAML-defined API." [p])
                 end, w)).
    { unfold __protocols, bind at 1 2, lift, deref. simpl.
      rewrite Hl. simpl. rewrite Hd. simpl.
      destruct ps as [| p0 ps']; [reflexivity |].
      change (negb (is_nil (p0 :: ps'))) with true. cbv iota.
      unfold bind at 1. simpl py_iter. cbv iota.
      apply (for_each_find (p0 :: ps') _
               (fun p => negb (value_in p (protocols (config w))))
               (fun p => InvalidRamlFileError
                           "'{0}' not a valid protocol for a RAML-defined API." [p])).
      intros p _. unfold bind, config_get.
      destruct (value_in p (protocols (config w))); reflexivity. }
    split; [exact Hrun |].
    rewrite Hrun. split.
    + intros H p Hin.
      destruct (find _ ps) eqn:E; [discriminate H |].
      pose proof (find_none _ _ E p Hin) as Hn.
      apply negb_false_iff in Hn. exact Hn.
    + intro H.
      destruct (find _ ps) as [p |] eqn:E; [| reflexivity].
      apply find_some in E. destruct E as [Hin Hn].
      rewrite (H p Hin) in Hn. discriminate Hn.
Qed.

Lemma protocols_all_configured_witness :
  let w := sample_world
             [OValue (VDict [(SStr "protocols", VList [VStr "HTTPS"; VStr "FTP"])])] [] in
  __protocols (Ref 0) [] w
  = (Raise (InvalidRamlFileError
              "'{0}' not a valid protocol for a RAML-defined API." [VStr "FTP"]), w).
Proof.
  intro w.
  destruct (protocols_all_configured w 0
              [(SStr "protocols", VList [VStr "HTTPS"; VStr "FTP"])] [] eq_refl)
    as [_ H].
  rewrite (proj1 (H [VStr "HTTPS"; VStr "FTP"] eq_refl)). reflexivity.
Defined.

Lemma scheme_names_collected (ss : list value) (names : list string) (w : world) :
  map scheme_name ss = map Some names ->
  map_m (fun s => ks <- lift (iterkeys s) ;; lift (first ks)) ss w
  = (Ok (map SStr names), w).
Proof.
  revert names. induction ss as [| s ss IH]; intros [| nm names] H;
    try discriminate H.
  - reflexivity.
  - simpl in H. injection H as Hs Hrest.
    simpl. unfold bind at 1.
    destruct s as [c | xs | [| [[| | | k] v] e]]; try discriminate Hs.
    simpl in Hs. injection Hs as ->.
    change ((ks <- lift (iterkeys (VDict ((SStr nm, v) :: e))) ;;
             lift (first ks)) w) with (Ok (SStr nm), w).
    cbv beta iota. unfold bind at 1. rewrite (IH names Hrest). reflexivity.
Qed.

(** X8.  With [securitySchemes] a sequence of mappings, each named by a
    string first key, the Security Schemes rule passes exactly when every
    name is in the configured scheme list or starts with "x-"; otherwise it
    names the first scheme that is neither. *)
Theorem security_schemes_known_or_custom
    (w : world) (l : nat) (d : list (scalar * value)) (args : list arg)
    (ss : list value) (names : list string) :
  heap w l = OValue (VDict d) ->
  dict_lookup d (SStr "securitySchemes") = Some (VList ss) ->
  map scheme_name ss = map Some names ->
  __security_schemes (Ref l) args w
  = (match find (fun nm => negb (scalar_in (SStr nm) (auth_schemes (config w)))
                           && negb (prefix "x-" nm)) names with
     | None => Ok tt
     | Some nm =>
         Raise (InvalidRamlFileError "'{0}' is not a valid Security Scheme."
                  [VStr nm])
     end, w)
  /\ (__security_schemes (Ref l) args w = (Ok tt, w)
      <-> forall nm, In nm names ->
            scalar_in (SStr nm) (auth_schemes (config w)) = true
            \/ prefix "x-" nm = true).
Proof.
  intros Hl Hd Hn.
  set (bad := fun nm => negb (scalar_in (SStr nm) (auth_schemes (config w)))
                        && negb (prefix "x-" nm)).
  assert (Hrun : __security_schemes (Ref l) args w
            = (match find bad names with
               | None => Ok tt
               | Some nm =>
                   Raise (InvalidRamlFileError
                            "'{0}' is not a valid Security Scheme." [VStr nm])
               end, w)).
  { unfold __security_schemes, bind at 1 2 3, lift, deref. simpl.
    rewrite Hl. simpl. rewrite Hd. simpl.
    unfold bind at 1.
    match goal with
    | |- context [map_m ?f ss w] =>
        replace (map_m f ss w) with (Ok (map SStr names), w)
          by (symmetry; exact (scheme_names_collected ss names w Hn))
    end.
    destruct names as [| nm0 names']; [reflexivity |].
    change (list_truthy (map SStr (nm0 :: names'))) with true. cbv iota.
    assert (Hloop : forall ns,
              for_each (map SStr ns)
                (fun s =>
                   valid <- config_get auth_schemes ;;
                   if negb (scalar_in s valid) then
                     x <- lift (py_startswith s "x-") ;;
                     if negb x then
                       invalid "'{0}' is not a valid Security Scheme." [VScalar s]
                     else ret tt
                   else ret tt) w
              = (match find bad ns with
                 | None => Ok tt
                 | Some nm =>
                     Raise (InvalidRamlFileError
                              "'{0}' is not a valid Security Scheme." [VStr nm])
                 end, w)).
    { induction ns as [| n ns IH]; [reflexivity |].
      simpl. unfold bind at 1. unfold bad at 1.
      unfold bind at 1, config_get.
      destruct (scalar_in (SStr n) (auth_schemes (config w))); simpl.
      - exact IH.
      - unfold bind at 1, lift. simpl.
        destruct (prefix "x-" n); simpl; [exact IH | reflexivity]. }
    apply Hloop. }
  split; [exact Hrun |].
  rewrite Hrun. split.
  - intros H nm Hin.
    destruct (find bad names) eqn:E; [discriminate H |].
    pose proof (find_none _ _ E nm Hin) as Hb. unfold bad in Hb.
    apply andb_false_iff in Hb.
    destruct Hb as [Hb | Hb]; apply negb_false_iff in Hb; auto.
  - intro H.
    destruct (find bad names) as [nm |] eqn:E; [| reflexivity].
    apply find_some in E. destruct E as [Hin Hb].
    unfold bad in Hb. apply andb_true_iff in Hb. destruct Hb as [H1 H2].
    apply negb_true_iff in H1. apply negb_true_iff in H2.
    destruct (H nm Hin); congruence.
Qed.

Lemma security_schemes_known_or_custom_witness :
  let ss := [VDict [(SStr "oauth_2_0", VDict [])];
             VDict [(SStr "x-token", VDict [])];
             VDict [(SStr "basic", VDict [])]] in
  let w := sample_world [OValue (VDict [(SStr "securitySchemes", VList ss)])] [] in
  __security_schemes (Ref 0) [] w
  = (Raise (InvalidRamlFileError "'{0}' is not a valid Security Scheme."
              [VStr "basic"]), w).
Proof.
  intros ss w.
  rewrite (proj1 (security_schemes_known_or_custom w 0
                    [(SStr "securitySchemes", VList ss)] [] ss
                    ["oauth_2_0"; "x-token"; "basic"]
                    eq_refl eq_refl eq_refl)).
  reflexivity.
Defined.

(** X9.  With [uriParameters] a mapping keyed by strings, the URI
    Parameters rule raises exactly when some key is "version" in any
    letter case; a document without [uriParameters] passes. *)
Theorem uri_params_reserve_version
    (w : world) (l : nat) (d : list (scalar * value)) (args : list arg) :
  heap w l = OValue (VDict d) ->
  (dict_lookup d (SStr "uriParameters") = None ->
   __uri_params (Ref l) args w = (Ok tt, w))
  /\ (forall params names,
         dict_lookup d (SStr "uriParameters") = Some (VDict params) ->
         map fst params = map SStr names ->
         __uri_params (Ref l) args w
         = (if existsb (fun nm => lower nm =? "version") names
            then Raise (InvalidRamlFileError
                          "'version' can only be defined in baseUriParameters." [])
            else Ok tt, w)).
Proof.
  intro Hl. split.
  - intro Hd. unfold __uri_params, bind, lift, deref. simpl.
    rewrite Hl. simpl. rewrite Hd. reflexivity.
  - intros params names Hd Hk.
    unfold __uri_params, bind at 1 2 3, lift, deref. simpl.
    rewrite Hl. simpl. rewrite Hd. simpl. rewrite Hk.
    clear. induction names as [| n names IH]; [reflexivity |].
    simpl. unfold bind at 1. unfold bind at 1, lift. simpl.
    destruct (lower n =? "version"); simpl; [reflexivity | exact IH].
Qed.

Lemma uri_params_reserve_version_witness :
  let params := [(SStr "id", VDict []); (SStr "Version", VDict [])] in
  let w := sample_world [OValue (VDict [(SStr "uriParameters", VDict params)])] [] in
  __uri_params (Ref 0) [] w
  = (Raise (InvalidRamlFileError
              "'version' can only be defined in baseUriParameters." []), w).
Proof.
  intros params w.
  destruct (uri_params_reserve_version w 0
              [(SStr "uriParameters", VDict params)] [] eq_refl) as [_ H].
  rewrite (H params ["id"; "Version"] eq_refl eq_refl). reflexivity.
Defined.

(** ** The media-type pattern *)

Lemma prefix_app (p t : string) : prefix p (p ++ t) = true.
Proof.
  induction p as [| c p IH]; simpl.
  - destruct t; reflexivity.
  - destruct (ascii_dec c c) as [_ | N]; [exact IH | contradiction].
Qed.

Lemma prefix_split (p s : string) :
  prefix p s = true -> exists t, s = p ++ t.
Proof.
  revert s. induction p as [| c p IH]; intros s H.
  - exists s. reflexivity.
  - destruct s as [| c' s]; simpl in H; [discriminate |].
    destruct (ascii_dec c c') as [<- | N]; [| discriminate].
    destruct (IH s H) as [t ->]. exists t. reflexivity.
Qed.

Lemma drop_app (p t : string) : Regex.drop (String.length p) (p ++ t) = t.
Proof. induction p as [| c p IH]; simpl; [destruct t |]; auto. Qed.

Lemma match_suffix_intro mid suf post :
  all_in_class mid = true ->
  suf = "json" \/ suf = "xml" ->
  Regex.match_suffix (mid ++ suf ++ post) = true.
Proof.
  intros Hmid Hsuf. induction mid as [| c mid IH].
  - change ("" ++ suf ++ post) with (suf ++ post).
    destruct Hsuf as [-> | ->].
    + destruct post; reflexivity.
    + destruct post; reflexivity.
  - simpl in Hmid. apply andb_true_iff in Hmid. destruct Hmid as [Hc Hm].
    change (String c mid ++ suf ++ post) with (String c (mid ++ suf ++ post)).
    unfold Regex.match_suffix; fold Regex.match_suffix.
    rewrite Hc, (IH Hm). simpl. apply orb_true_r.
Qed.

Lemma match_suffix_elim s :
  Regex.match_suffix s = true ->
  exists mid suf post,
    s = mid ++ suf ++ post /\ all_in_class mid = true
    /\ (suf = "json" \/ suf = "xml").
Proof.
  induction s as [| c s IH]; intro H.
  - discriminate H.
  - unfold Regex.match_suffix in H; fold Regex.match_suffix in H.
    apply orb_true_iff in H. destruct H as [H | H].
    + apply orb_true_iff in H. destruct H as [H | H];
        apply prefix_split in H; destruct H as [t Ht].
      * exists "", "json", t. rewrite Ht. auto.
      * exists "", "xml", t. rewrite Ht. auto.
    + apply andb_true_iff in H. destruct H as [Hc Hs].
      destruct (IH Hs) as (mid & suf & post & -> & Hm & Hsuf).
      exists (String c mid), suf, post. repeat split; auto.
      simpl. rewrite Hc, Hm. reflexivity.
Qed.

Lemma search_intro pre s :
  Regex.match_here s = true -> Regex.search (pre ++ s) = true.
Proof.
  intro H. induction pre as [| c pre IH].
  - change ("" ++ s) with s.
    destruct s; cbn [Regex.search]; rewrite H; reflexivity.
  - change (String c pre ++ s) with (String c (pre ++ s)).
    unfold Regex.search; fold Regex.search. rewrite IH. apply orb_true_r.
Qed.

Lemma search_elim s :
  Regex.search s = true ->
  exists pre t, s = pre ++ t /\ Regex.match_here t = true.
Proof.
  induction s as [| c s IH]; intro H.
  - exists "", "". split; [reflexivity |].
    cbn [Regex.search] in H. rewrite orb_false_r in H. exact H.
  - unfold Regex.search in H; fold Regex.search in H.
    apply orb_true_iff in H. destruct H as [H | H].
    + exists "", (String c s). auto.
    + destruct (IH H) as (pre & t & -> & Ht).
      exists (String c pre), t. auto.
Qed.

Lemma in_class_alphabet (c : ascii) :
  Regex.in_class c
  = existsb (Ascii.eqb c) (list_ascii_of_string class_alphabet).
Proof. destruct c as [[] [] [] [] [] [] [] []]; reflexivity. Qed.

Lemma in_class_listed (c : ascii) :
  Regex.in_class c = true <-> In c (list_ascii_of_string class_alphabet).
Proof.
  rewrite in_class_alphabet, existsb_exists. split.
  - intros [x [Hin Hx]]. apply Ascii.eqb_eq in Hx. subst x. exact Hin.
  - intro Hin. exists c. split; [exact Hin | apply Ascii.eqb_refl].
Qed.

Lemma all_in_class_listed (mid : string) :
  all_in_class mid = true
  <-> forall c, In c (list_ascii_of_string mid) ->
        In c (list_ascii_of_string class_alphabet).
Proof.
  induction mid as [| c mid IH]; cbn [all_in_class].
  - split; [intros _ c [] | reflexivity].
  - rewrite andb_true_iff, in_class_listed, IH.
    change (list_ascii_of_string (String c mid))
      with (c :: list_ascii_of_string mid).
    split.
    + intros [Hc Hm] x [<- | Hx]; [exact Hc | exact (Hm x Hx)].
    + intro H. split; [apply H; left; reflexivity |].
      intros x Hx. apply H. right. exact Hx.
Qed.

(** X10.  The media-type pattern is found in exactly the strings that
    contain, anywhere, "application/" followed by any number of characters
    among the letters A to Z and a to z, '.', '/', '0', '-' and '1',
    followed by "json" or "xml".  Any such string passes the media-type
    check, whatever surrounds the match and whatever the configuration is;
    a string that is neither in the configured exact-match set nor one of
    "schema" and "example" passes only so. *)
Theorem media_type_pattern_language (s : string) :
  (Regex.search s = true
   <-> exists pre mid suf post,
         s = pre ++ "application/" ++ mid ++ suf ++ post
         /\ (forall c, In c (list_ascii_of_string mid) ->
               In c (list_ascii_of_string
                       "ABCDEFGHIJKLMNOPQRSTUVWXYZabcdefghijklmnopqrstuvwxyz./0-1"))
         /\ (suf = "json" \/ suf = "xml"))
  /\ (forall w, Regex.search s = true ->
        __check_media_type (VStr s) w = (Ok tt, w))
  /\ (forall w,
        known_media_type w s = false -> s <> "schema" -> s <> "example" ->
        (__check_media_type (VStr s) w = (Ok tt, w)
         <-> Regex.search s = true)).
Proof.
  split; [| split].
  - split.
    + intro H. destruct (search_elim s H) as (pre & t & -> & Ht).
      unfold Regex.match_here in Ht. apply andb_true_iff in Ht.
      destruct Ht as [Hp Hm]. apply prefix_split in Hp. destruct Hp as [u ->].
      change 12 with (String.length "application/") in Hm.
      rewrite drop_app in Hm.
      destruct (match_suffix_elim u Hm) as (mid & suf & post & -> & Hmid & Hsuf).
      exists pre, mid, suf, post. split; [reflexivity |].
      split; [| exact Hsuf]. apply all_in_class_listed. exact Hmid.
    + intros (pre & mid & suf & post & -> & Hmid & Hsuf).
      apply search_intro. unfold Regex.match_here.
      rewrite prefix_app.
      change 12 with (String.length "application/").
      rewrite drop_app. simpl. apply match_suffix_intro; [| assumption].
      apply all_in_class_listed. exact Hmid.
  - intros w H. rewrite check_media_type_string, H.
    rewrite orb_true_r. reflexivity.
  - intros w Hk Hs He. rewrite check_media_type_string, Hk.
    assert (Hb : value_in (VStr s) [SStr "schema"; SStr "example"] = false).
    { simpl. destruct (String.eqb_spec s "schema"); [contradiction |].
      destruct (String.eqb_spec s "example"); [contradiction | reflexivity]. }
    rewrite Hb. simpl.
    destruct (Regex.search s); split; intro H; congruence.
Qed.

Lemma media_type_pattern_language_witness :
  let w := sample_world [] [] in
  __check_media_type (VStr "text/x; application/hal-json!") w = (Ok tt, w)
  /\ __check_media_type (VStr "application/xml") w = (Ok tt, w).
Proof.
  intro w. split.
  - apply (proj1 (proj2 (media_type_pattern_language
                           "text/x; application/hal-json!"))).
    apply (proj2 (proj1 (media_type_pattern_language
                           "text/x; application/hal-json!"))).
    exists "text/x; ", "hal-", "json", "!".
    split; [reflexivity |]. split; [| left; reflexivity].
    intros c Hc. simpl in Hc.
    destruct Hc as [<- | [<- | [<- | [<- | []]]]]; simpl; tauto.
  - apply (proj2 (proj2 (media_type_pattern_language "application/xml")) w).
    + reflexivity.
    + discriminate.
    + discriminate.
    + reflexivity.
Defined.

(** ** Bodies and responses *)









(** ** Method-scoped data that is null *)

(** X14.  When [data] holds [None] under the name in [orig_method] (a
    method declared with nothing under it), the Body rule and the three
    parameter rules fail with [AttributeError], and so does the Responses
    rule on an object without [method]: the read through [orig_method] has
    no test for [None]. *)
Theorem null_under_orig_method
    (w : world) (l : nat) (n : node) (d : list (scalar * value))
    (m : scalar) (args : list arg) :
  heap w l = ONode n ->
  data n = VDict d ->
  orig_method n = Some m ->
  dict_lookup d m = Some VNone ->
  __body (Ref l) args w = (Raise AttributeError, w)
  /\ __query_params (Ref l) args w = (Raise AttributeError, w)
  /\ __uri_params_resource (Ref l) args w = (Raise AttributeError, w)
  /\ __form_params (Ref l) args w = (Raise AttributeError, w)
  /\ (method n = None -> __responses (Ref l) args w = (Raise AttributeError, w)).
Proof.
  intros Hl Hd Hom Hnull.
  assert (Hp : forall p, params_rule p (Ref l) args w = (Raise AttributeError, w)).
  { intro p. unfold params_rule, bind, lift, deref, hasattr_orig_method,
      attr_data, attr_orig_method. simpl.
    rewrite Hl. simpl. rewrite Hd, Hom. simpl. rewrite Hnull. reflexivity. }
  split; [| split; [| split; [| split]]]; try apply Hp.
  - unfold __body, bind, lift, deref, hasattr_orig_method, attr_data,
      attr_orig_method. simpl.
    rewrite Hl. simpl. rewrite Hom, Hd. simpl. rewrite Hnull. reflexivity.
  - intro Hm. unfold __responses, bind, lift, deref, hasattr_method,
      hasattr_orig_method, attr_data, attr_orig_method. simpl.
    rewrite Hl. simpl. rewrite Hm, Hom. simpl. rewrite Hd. simpl.
    rewrite Hnull. reflexivity.
Qed.

Lemma null_under_orig_method_witness :
  let n := mkNode (SStr "collection") None (Some (SStr "get"))
                  (VDict [(SStr "get", VNone)]) VNone in
  let w := sample_world [ONode n] [] in
  __body (Ref 0) [] w = (Raise AttributeError, w)
  /\ __query_params (Ref 0) [] w = (Raise AttributeError, w).
Proof.
  intros n w.
  destruct (null_under_orig_method w 0 n [(SStr "get", VNone)] (SStr "get") []
              eq_refl eq_refl eq_refl eq_refl) as (Hb & Hq & _).
  split; assumption.
Defined.

(** X15.  When [data] holds [None] under the name in [method], an object
    without [orig_method] is validated as the same object without its
    [method]: the Body rule, the three parameter rules and the Responses
    rule give the results they give on the object's own, unscoped data. *)
Theorem null_under_method
    (w : world) (l l' : nat) (n : node) (d : list (scalar * value))
    (m : scalar) (args : list arg) :
  heap w l = ONode n ->
  heap w l' = ONode (mkNode (name n) None None (data n) (type n)) ->
  data n = VDict d ->
  method n = Some m ->
  orig_method n = None ->
  dict_lookup d m = Some VNone ->
  __body (Ref l) args w = __body (Ref l') args w
  /\ __query_params (Ref l) args w = __query_params (Ref l') args w
  /\ __uri_params_resource (Ref l) args w = __uri_params_resource (Ref l') args w
  /\ __form_params (Ref l) args w = __form_params (Ref l') args w
  /\ __responses (Ref l) args w = __responses (Ref l') args w.
Proof.
  intros Hl Hl' Hd Hm Hom Hnull.
  assert (Hp : forall p, params_rule p (Ref l) args w
                         = params_rule p (Ref l') args w).
  { intro p. unfold params_rule, bind, lift, deref, hasattr_orig_method,
      hasattr_method, attr_data, attr_method, attr_orig_method. simpl.
    rewrite Hl, Hl'. simpl. rewrite Hd, Hom, Hm. simpl. rewrite Hnull.
    reflexivity. }
  split; [| split; [| split; [| split]]]; try apply Hp.
  - unfold __body, bind, lift, deref, hasattr_orig_method,
      hasattr_method, attr_data, attr_method, attr_orig_method. simpl.
    rewrite Hl, Hl'. simpl. rewrite Hd, Hom, Hm. simpl. rewrite Hnull.
    reflexivity.
  - unfold __responses, bind, lift, deref, hasattr_orig_method,
      hasattr_method, attr_data, attr_method, attr_orig_method. simpl.
    rewrite Hl, Hl'. simpl. rewrite Hd, Hom, Hm. simpl. rewrite Hnull.
    reflexivity.
Qed.

Lemma null_under_method_witness :
  let d := [(SStr "get", VNone);
            (SStr "body", VDict [(SStr "text/csv", VDict [])])] in
  let n := mkNode (SStr "/users") (Some (SStr "get")) None (VDict d) VNone in
  let w := sample_world [ONode n; ONode (mkNode (SStr "/users") None None (VDict d) VNone)] [] in
  __body (Ref 0) [] w = (Raise (unsupported "text/csv"), w).
Proof.
  intros d n w.
  rewrite (proj1 (null_under_method w 0 1 n d (SStr "get") []
                    eq_refl eq_refl eq_refl eq_refl eq_refl eq_refl)).
  reflexivity.
Defined.

(** ** Merged parameters *)






(** ** Spellings of a resource-type assignment *)

Lemma check_assigned_named w resource t s lr rt args :
  heap w lr = ORoot rt ->
  t = VStr s \/ t = VList [VStr s] \/ (exists v, t = VDict [(SStr s, v)]) ->
  check_assigned resource t (Ref lr :: args) w =
    (match resource_types rt with
     | Some declared =>
         if scalar_in (SStr s) (map name declared) then Ok tt
         else Raise (InvalidRamlFileError "'{0}' is not defined in resourceTypes"
                       [VStr s])
     | None => Raise TypeError
     end, w).
Proof.
  intros Hr Ht.
  destruct Ht as [-> | [-> | [v ->]]];
    unfold check_assigned, bind, lift, deref, attr_resource_types, names_of;
    simpl; rewrite Hr;
    (destruct (resource_types rt) as [declared |]; simpl; [| reflexivity]);
    rewrite value_in_scalar;
    destruct (scalar_in (SStr s) (map name declared)); reflexivity.
Qed.

(** X17.  A resource type may be assigned as a bare name, as a sequence of
    one name or as a mapping with the name as its single key: for a name
    that is not empty the three spellings are validated alike, by
    [__set_type] on [data['type']] and by [__resource_type] on the object's
    [type], and pass exactly when the root declares the name.  An empty
    assignment ([None], an empty string, sequence or mapping) passes without
    the root being consulted.  When [data['type']] and the object's [type]
    hold the same value the two rules give the same result. *)
Theorem resource_type_spellings
    (w : world) (l lr : nat) (n : node) (rt : root)
    (d : list (scalar * value)) (args : list arg) :
  heap w l = ONode n ->
  heap w lr = ORoot rt ->
  data n = VDict d ->
  (forall t s,
      s <> "" ->
      t = VStr s \/ t = VList [VStr s] \/ (exists v, t = VDict [(SStr s, v)]) ->
      let verdict :=
        (match resource_types rt with
         | Some declared =>
             if scalar_in (SStr s) (map name declared) then Ok tt
             else Raise (InvalidRamlFileError
                           "'{0}' is not defined in resourceTypes" [VStr s])
         | None => Raise TypeError
         end, w) in
      (dict_lookup d (SStr "type") = Some t ->
       __set_type (Ref l) (Ref lr :: args) w = verdict)
      /\ (type n = t -> __resource_type (Ref l) (Ref lr :: args) w = verdict))
  /\ (truthy (field (VDict d) "type") = false ->
      forall any, __set_type (Ref l) any w = (Ok tt, w))
  /\ (truthy (type n) = false ->
      forall any, __resource_type (Ref l) any w = (Ok tt, w))
  /\ (field (VDict d) "type" = type n ->
      forall any, __set_type (Ref l) any w = __resource_type (Ref l) any w).
Proof.
  intros Hl Hr Hd.
  assert (Hset : forall any,
            __set_type (Ref l) any w
            = (if negb (truthy (field (VDict d) "type")) then ret tt
               else check_assigned (ONode n) (field (VDict d) "type") any) w).
  { intro any. unfold __set_type, bind, lift, deref, attr_data, field. simpl.
    rewrite Hl. simpl. rewrite Hd. reflexivity. }
  assert (Hres : forall any,
            __resource_type (Ref l) any w
            = (if negb (truthy (type n)) then ret tt
               else check_assigned (ONode n) (type n) any) w).
  { intro any. unfold __resource_type, bind, lift, deref, attr_type. simpl.
    rewrite Hl. reflexivity. }
  split; [| split; [| split]].
  - intros t s Hs Ht verdict.
    assert (Htruthy : truthy t = true).
    { destruct Ht as [-> | [-> | [v ->]]]; try reflexivity.
      simpl. destruct s; [contradiction | reflexivity]. }
    split.
    + intro Hlook. rewrite Hset. unfold field. rewrite Hlook, Htruthy.
      apply (check_assigned_named w _ t s lr rt args Hr Ht).
    + intro Htype. rewrite Hres, Htype, Htruthy.
      apply (check_assigned_named w _ t s lr rt args Hr Ht).
  - intros Hf any. rewrite Hset, Hf. reflexivity.
  - intros Hf any. rewrite Hres, Hf. reflexivity.
  - intros Heq any. rewrite Hset, Hres, Heq. reflexivity.
Qed.

Lemma resource_type_spellings_witness :
  let collection := mkNode (SStr "collection") None None (VDict []) VNone in
  let d := [(SStr "type", VList [VStr "collection"])] in
  let n := mkNode (SStr "/users") None None (VDict d) (VStr "member") in
  let rt := mkRoot (Some [collection]) None in
  let w := sample_world [ONode n; ORoot rt] [] in
  __set_type (Ref 0) [Ref 1] w = (Ok tt, w)
  /\ __resource_type (Ref 0) [Ref 1] w
     = (Raise (InvalidRamlFileError "'{0}' is not defined in resourceTypes"
                 [VStr "member"]), w).
Proof.
  intros collection d n rt w.
  destruct (resource_type_spellings w 0 1 n rt d [] eq_refl eq_refl eq_refl)
    as [H _].
  split.
  - apply (proj1 (H (VList [VStr "collection"]) "collection"
                    ltac:(discriminate) (or_intror (or_introl eq_refl)))).
    reflexivity.
  - apply (proj2 (H (VStr "member") "member"
                    ltac:(discriminate) (or_introl eq_refl))).
    reflexivity.
Defined.

(** ** The Secured By rule *)

(** X18.  An object without [securedBy] (or with an empty one) passes
    without the root being consulted.  With a [securedBy] and a root that
    declares no security scheme, the rule raises whatever the references
    are.  With a sequence of references, none an empty mapping, and a root
    that declares schemes, the rule passes exactly when every reference, a
    bare name or the first key of a mapping, is a declared scheme name, and
    otherwise names the first reference that is not. *)
Theorem secured_by_references
    (w : world) (l lr : nat) (n : node) (rt : root)
    (d : list (scalar * value)) (args : list arg) :
  heap w l = ONode n ->
  heap w lr = ORoot rt ->
  data n = VDict d ->
  (truthy (field (VDict d) "securedBy") = false ->
   forall any, __secured_by (Ref l) any w = (Ok tt, w))
  /\ (truthy (field (VDict d) "securedBy") = true ->
      declared_schemes rt = [] ->
      __secured_by (Ref l) (Ref lr :: args) w
      = (Raise (InvalidRamlFileError
                  "No Security Schemes are defined in RAML file but {0} scheme is assigned to '{1}'."
                  [field (VDict d) "securedBy"; VScalar (name n)]), w))
  /\ (forall refs,
         dict_lookup d (SStr "securedBy") = Some (VList refs) ->
         ~ In (VDict []) refs ->
         declared_schemes rt <> [] ->
         __secured_by (Ref l) (Ref lr :: args) w
         = (match find (fun s => negb (value_in (scheme_ref s) (declared_schemes rt)))
                       refs with
            | None => Ok tt
            | Some s =>
                Raise (InvalidRamlFileError
                         "'{0}' is applied to '{1}' but is not defined in the securitySchemes"
                         [scheme_ref s; VScalar (name n)])
            end, w)).
Proof.
  intros Hl Hr Hd. split; [| split].
  - intros Hf any.
    unfold __secured_by, bind, lift, deref, attr_data. simpl.
    rewrite Hl. simpl. rewrite Hd. simpl. unfold field in Hf. rewrite Hf.
    reflexivity.
  - intros Hf Hnone.
    unfold __secured_by, bind, lift, deref, attr_data, attr_security_schemes,
      attr_name. simpl.
    rewrite Hl. simpl. rewrite Hd. simpl. unfold field in *. rewrite Hf. simpl.
    rewrite Hr. simpl. unfold declared_schemes in Hnone.
    destruct (security_schemes rt) as [[| s ss] |]; try discriminate Hnone;
      reflexivity.
  - intros refs Hlook Hrefs Hdecl.
    assert (Hfacts : nodes_truthy (security_schemes rt) = true
                     /\ names_of (security_schemes rt)
                        = Ok (declared_schemes rt)).
    { unfold declared_schemes in *.
      destruct (security_schemes rt) as [[| s0 ss] |];
        try (exfalso; apply Hdecl; reflexivity).
      split; reflexivity. }
    destruct Hfacts as [Htruthy Hnames].
    generalize dependent (declared_schemes rt). intros names _ Hnames.
    destruct refs as [| r0 refs'].
    { unfold __secured_by, bind, lift, deref, attr_data. simpl.
      rewrite Hl. simpl. rewrite Hd. simpl. rewrite Hlook. reflexivity. }
    assert (Hrun : __secured_by (Ref l) (Ref lr :: args) w
              = for_each (r0 :: refs') (fun s =>
                  scheme <- (if isinstance_dict s then
                               ks <- lift (iterkeys s) ;;
                               k <- lift (first ks) ;;
                               ret (VScalar k)
                             else ret s) ;;
                  scheme_names <- lift (names_of (security_schemes rt)) ;;
                  if negb (value_in scheme scheme_names) then
                    nm <- lift (attr_name (ONode n)) ;;
                    invalid "'{0}' is applied to '{1}' but is not defined in the securitySchemes" [scheme; nm]
                  else ret tt) w).
    { unfold __secured_by, bind at 1 2 3 4 5 6 7, lift, deref, attr_data,
        attr_security_schemes. simpl.
      rewrite Hl. simpl. rewrite Hd. simpl. rewrite Hlook. simpl.
      rewrite Hr. simpl. rewrite Htruthy. reflexivity. }
    rewrite Hrun.
    apply (for_each_find (r0 :: refs') _
             (fun s => negb (value_in (scheme_ref s) names))
             (fun s => InvalidRamlFileError
                         "'{0}' is applied to '{1}' but is not defined in the securitySchemes"
                         [scheme_ref s; VScalar (name n)])).
    intros s Hin.
    assert (Hne : s <> VDict []) by (intros ->; exact (Hrefs Hin)).
    rewrite Hnames.
    destruct s as [c | xs | [| [k v] e]]; [| | contradiction |];
      unfold bind, lift, ret, attr_name, scheme_ref; simpl;
      match goal with
      | |- context [value_in ?x names] => destruct (value_in x names)
      end; reflexivity.
Qed.

Lemma secured_by_references_witness :
  let oauth := mkNode (SStr "oauth_2_0") None None (VDict []) (VStr "OAuth 2.0") in
  let refs := [VStr "oauth_2_0"; VDict [(SStr "basic", VDict [])]] in
  let d := [(SStr "securedBy", VList refs)] in
  let n := mkNode (SStr "/users") None None (VDict d) VNone in
  let rt := mkRoot None (Some [oauth]) in
  let w := sample_world [ONode n; ORoot rt] [] in
  __secured_by (Ref 0) [Ref 1] w
  = (Raise (InvalidRamlFileError
              "'{0}' is applied to '{1}' but is not defined in the securitySchemes"
              [VStr "basic"; VStr "/users"]), w).
Proof.
  intros oauth refs d n rt w.
  destruct (secured_by_references w 0 1 n rt d [] eq_refl eq_refl eq_refl)
    as (_ & _ & H).
  rewrite (H refs eq_refl).
  - reflexivity.
  - intros [H1 | [H1 | []]]; discriminate H1.
  - discriminate.
Defined.

(** ** The Header rule, in full *)

Lemma first_line_exists (text : string) :
  exists h tail,
    text = h ++ tail /\ no_newline h = true
    /\ (tail = "" \/ exists rest, tail = String newline rest).
Proof.
  induction text as [| c text IH].
  - exists "", "". auto.
  - destruct (Ascii.eqb_spec c newline) as [-> | Hc].
    + exists "", (String newline text). repeat split; eauto.
    + destruct IH as (h & tail & -> & Hh & Htail).
      exists (String c h), tail. repeat split; auto.
      simpl. rewrite Hh.
      destruct (Ascii.eqb_spec c newline); [contradiction | reflexivity].
Qed.

(** X19.  On a path that is not empty and holds no NUL character, the
    Header rule passes exactly when the file's text begins with a line that
    splits, on white space, into the two tokens "#%RAML" and a version of
    the configured list, and when something follows the newline that ends
    this line.  White space (U+00A0 and U+0085 included) around and between
    the two tokens does not matter.  Such a path that names no file is an
    [OSError], and so is the empty path; a path with a NUL character in it
    is a [ValueError]. *)
Theorem raml_header_passes_iff (w : world) (path : string) :
  (usable_path path = true ->
   (forall text,
       files w (ByPath path) = Some text ->
       (__raml_header (Imm (SStr path)) [] w = (Ok tt, w)
        <-> exists h version rest,
              text = h ++ String newline rest
              /\ no_newline h = true
              /\ split_ws h = ["#%RAML"; version]
              /\ scalar_in (SStr version) (raml_versions (config w)) = true
              /\ rest <> ""))
   /\ (files w (ByPath path) = None ->
       __raml_header (Imm (SStr path)) [] w = (Raise OSError, w)))
  /\ (path = "" ->
      __raml_header (Imm (SStr path)) [] w = (Raise OSError, w))
  /\ (has_nul path = true ->
      __raml_header (Imm (SStr path)) [] w = (Raise ValueError, w)).
Proof.
  split; [| split].
  - intro Hp. split.
    + intros text Hf. split.
      * intro Hok.
        assert (Hne : text <> "").
        { intros ->. rewrite (raml_header_empty_file w path Hp Hf) in Hok.
          discriminate Hok. }
        destruct (first_line_exists text) as (h & tail & -> & Hh & Htail).
        destruct (first_line_of h tail Hh Htail)
          as (line & r & xs & Hrl & Hsp & Hr).
        rewrite (raml_header_lines w path _ line r h xs Hp Hf Hne Hrl Hsp) in Hok.
        unfold header_outcome in Hok.
        destruct (h =? ""); [discriminate Hok |].
        destruct (split_ws h) as [| a [| b [| c l']]] eqn:Etok;
          try discriminate Hok.
        destruct (String.eqb_spec a "#%RAML") as [-> | Ha];
          [| discriminate Hok].
        simpl in Hok.
        destruct (scalar_in (SStr b) (raml_versions (config w))) eqn:Ever;
          [| discriminate Hok].
        simpl in Hok.
        destruct (String.eqb_spec r "") as [Er | Er]; [discriminate Hok |].
        destruct Htail as [-> | [rest ->]].
        -- contradiction.
        -- exists h, b, rest. subst r. auto.
      * intros (h & version & rest & -> & Hh & Htok & Hver & Hrest).
        destruct (first_line_of h (String newline rest) Hh) as
          (line & r & xs & Hrl & Hsp & Hr); [right; eauto |].
        assert (Hne : h ++ String newline rest <> "")
          by (destruct h; discriminate).
        rewrite (raml_header_lines w path _ line r h xs Hp Hf Hne Hrl Hsp).
        unfold header_outcome. subst r.
        rewrite (split_ws_nonempty h _ _ Htok), Htok, Hver. simpl.
        destruct rest; [contradiction | reflexivity].
    + intro Hf.
      destruct (stat_usable_path w path Hp) as [Hsize _]. rewrite Hf in Hsize.
      unfold __raml_header. unfold bind at 1 2 3.
      unfold no_more_args, ret, deref. cbv beta iota. rewrite Hsize.
      reflexivity.
  - intros ->. reflexivity.
  - intro Hn.
    unfold __raml_header. unfold bind at 1 2 3.
    unfold no_more_args, ret, deref, getsize, fsname_of. cbv beta iota.
    rewrite Hn. reflexivity.
Qed.

Lemma raml_header_passes_iff_witness :
  let header := "  #%RAML" ++ String "160" (String "009" "0.8") ++ String "133" "" in
  let text := header ++ String newline "title: X" in
  let w := sample_world [] [("api.raml", text)] in
  __raml_header (Imm (SStr "api.raml")) [] w = (Ok tt, w)
  /\ __raml_header (Imm (SStr "missing.raml")) [] w = (Raise OSError, w)
  /\ __raml_header (Imm (SStr (String "000" "api.raml"))) [] w
     = (Raise ValueError, w).
Proof.
  intros header text w. split; [| split].
  - apply (proj1 (proj1 (raml_header_passes_iff w "api.raml") eq_refl)
             text eq_refl).
    exists header, "0.8", "title: X".
    split; [reflexivity |]. split; [reflexivity |]. split; [reflexivity |].
    split; [reflexivity | discriminate].
  - apply (proj2 (proj1 (raml_header_passes_iff w "missing.raml") eq_refl)).
    reflexivity.
  - apply (proj2 (proj2 (raml_header_passes_iff w (String "000" "api.raml")))).
    reflexivity.
Defined.

(** ** The Version rule, in full *)

(** X20.  On a document whose [baseUri] is a string, the Version rule
    passes exactly when a version is declared, or when the production-mode
    flag is off and the [baseUri] has no "{version}" placeholder.  With the
    flag on and no version declared it raises the validator's error
    whatever [baseUri] holds, even nothing.  Called without the flag it
    fails with [IndexError] before it reads anything. *)
Theorem version_rule_decision
    (w : world) (l : nat) (d : list (scalar * value))
    (prod : arg) (args : list arg) :
  heap w l = OValue (VDict d) ->
  (forall s,
      dict_lookup d (SStr "baseUri") = Some (VStr s) ->
      (__version (Ref l) (prod :: args) w = (Ok tt, w)
       <-> truthy (field (VDict d) "version") = true
           \/ (arg_truthy w prod = false /\ contains "{version}" s = false)))
  /\ (arg_truthy w prod = true ->
      truthy (field (VDict d) "version") = false ->
      __version (Ref l) (prod :: args) w
      = (Raise (InvalidRamlFileError "RAML File does not define an API version." []),
         w))
  /\ (forall raml, __version raml [] w = (Raise IndexError, w)).
Proof.
  intro Hl. split; [| split].
  - intros s Hb.
    assert (Hrun : __version (Ref l) (prod :: args) w
              = (if arg_truthy w prod && negb (truthy (field (VDict d) "version"))
                 then Raise (InvalidRamlFileError
                               "RAML File does not define an API version." [])
                 else if contains "{version}" s
                         && negb (truthy (field (VDict d) "version"))
                 then Raise (InvalidRamlFileError
                               "RAML File's baseUri includes {version} parameter but no version is defined." [])
                 else Ok tt, w)).
    { unfold __version, bind, lift, deref, arg_truthy, field. simpl.
      rewrite Hl. simpl. rewrite Hb.
      destruct (obj_truthy _ && _); [reflexivity |]. simpl.
      destruct (contains "{version}" s && _); reflexivity. }
    rewrite Hrun.
    destruct (arg_truthy w prod); destruct (truthy (field (VDict d) "version"));
      destruct (contains "{version}" s); simpl; split; intro H;
      try discriminate H; auto;
      destruct H as [H | [H1 H2]]; discriminate.
  - intros Hp Hv.
    unfold __version, bind, lift, deref, arg_truthy, field in *. simpl.
    rewrite Hl. simpl. rewrite Hp, Hv. reflexivity.
  - intro raml. reflexivity.
Qed.

Lemma version_rule_decision_witness :
  let d := [(SStr "baseUri", VStr "https://api.example.com/{version}");
            (SStr "version", VStr "v1")] in
  let w := sample_world [OValue (VDict d)] [] in
  __version (Ref 0) [Imm (SBool true)] w = (Ok tt, w).
Proof.
  intros d w.
  destruct (version_rule_decision w 0 d (Imm (SBool true)) [] eq_refl)
    as [H _].
  apply (H "https://api.example.com/{version}" eq_refl).
  left. reflexivity.
Defined.

(** ** The media-type rule behind the [mediaType] property *)

(** X21.  The property registry maps [mediaType] to the root-level
    media-type rule, which takes the document alone and calls [get] on it.
    On a resource-like object that rule cannot succeed: with validation on,
    a wrapped property operation called for [mediaType] fails before the
    operation runs, with [TypeError] when further arguments follow the
    property and with [AttributeError] when none does. *)
Theorem media_type_property_cannot_pass {R} (func : pyfunc R)
    (w : world) (l : nat) (n : node) (args : list arg) :
  heap w l = ONode n ->
  environ w "RAML_VALIDATE" = Some "1" \/ main_validate (config w) = "True" ->
  call (validate_property func) (Ref l) (Imm (SStr "mediaType") :: args) w
  = (Raise (if is_nil args then AttributeError else TypeError), w).
Proof.
  intros Hl Hon.
  assert (Hen : enabled w = (Ok true, w)).
  { rewrite enabled_value. unfold env_flag.
    destruct Hon as [-> | ->]; [reflexivity |].
    rewrite orb_true_r. reflexivity. }
  simpl. unfold bind at 1. rewrite Hen.
  unfold bind, deref, __map_to_validate_prop, subscript. simpl.
  destruct args as [| a args]; simpl.
  - unfold __media_type, bind, lift, deref. simpl. rewrite Hl. reflexivity.
  - reflexivity.
Qed.

Lemma media_type_property_cannot_pass_witness :
  let w := with_flag (sample_world [ONode sample_trait; ORoot (mkRoot None None)] []) in
  call (validate_property sample_set_property) (Ref 0)
       [Imm (SStr "mediaType"); Ref 1] w
  = (Raise TypeError, w).
Proof.
  intro w.
  apply (media_type_property_cannot_pass sample_set_property w 0 sample_trait
           [Ref 1]).
  - reflexivity.
  - left. reflexivity.
Defined.

(** ** The parameter rules never index an empty mapping *)

(** X22.  The parameter rules read the first entry of the merged mapping
    only when the mapping is not empty: whatever the object, the arguments
    and the state are, none of them fails with [IndexError] or
    [KeyError]. *)
Theorem parameter_rules_guard_first_entry
    (p : string) (obj : arg) (args : list arg) (w : world) :
  fst (params_rule p obj args w) <> Raise IndexError
  /\ fst (params_rule p obj args w) <> Raise KeyError.
Proof.
  assert (Hprim : forall e rest,
            fst (__primative_parameter (VDict (e :: rest)) w) <> Raise IndexError
            /\ fst (__primative_parameter (VDict (e :: rest)) w) <> Raise KeyError).
  { intros [k v] rest.
    unfold __primative_parameter, bind, lift, config_get. simpl.
    destruct v as [c | xs | e]; simpl; try (split; discriminate).
    destruct (negb _ && _); simpl; split; discriminate. }
  assert (Hguard : forall params,
            fst ((if list_truthy params then __primative_parameter (VDict params)
                  else ret tt) w) <> Raise IndexError
            /\ fst ((if list_truthy params then __primative_parameter (VDict params)
                     else ret tt) w) <> Raise KeyError).
  { intros [| e rest]; [split; discriminate | apply Hprim]. }
  unfold params_rule, bind, lift, deref.
  repeat match goal with
         | |- context [dict_of_items ?x] =>
             generalize (dict_of_items x); intro
         end.
  destruct obj as [c | l0]; simpl; [split; discriminate |].
  destruct (heap w l0) as [v | n | ns | rt]; simpl; try (split; discriminate).
  destruct (data n) as [c | xs | d]; simpl; try (split; discriminate).
  destruct (orig_method n) as [om |]; simpl.
  - destruct (dict_lookup d om) as [[c | xs | md] |]; simpl;
      try (split; discriminate).
    + destruct (dict_lookup md (SStr p)) as [[c | xs | mp] |]; simpl;
        try (split; discriminate);
        destruct (dict_lookup d (SStr p)) as [[c' | xs' | rp] |]; simpl;
          try (split; discriminate); apply Hguard.
    + destruct (dict_lookup d (SStr p)) as [[c' | xs' | rp] |]; simpl;
        try (split; discriminate); apply Hguard.
  - destruct (method n) as [m |]; simpl.
    + destruct (dict_lookup d m) as [[[ | b | z | s] | xs | md] |]; simpl;
        try (split; discriminate);
        try (destruct (dict_lookup md (SStr p)) as [[c | xs' | mp] |]; simpl;
             try (split; discriminate));
        destruct (dict_lookup d (SStr p)) as [[c' | xs'' | rp] |]; simpl;
          try (split; discriminate); apply Hguard.
    + destruct (dict_lookup d (SStr p)) as [[c' | xs' | rp] |]; simpl;
        try (split; discriminate); apply Hguard.
Qed.
